(** * gqlgen-contrib: opencensus tracing and metrics extensions for gqlgen

    A shallow embedding of the two gqlgen extensions of the repository,
    the tracer of package [gqlopencensus] (tracer.go) and the metrics
    collector of package [metrics] (extension.go and the measure
    declarations), followed by the properties of the specification.

    Conventions of the embedding.
    - Go strings are byte strings: [string] of the Standard Library.
    - A pointer or a func value that may be nil is an [option]; a call
      through a nil func value panics.
    - The calls an interceptor makes to the tracing and metrics backends,
      its reading of the clock and its call of the wrapped handler are
      effects.  They are written in a small state-and-panic monad [M]: the
      state is the wall clock together with the log of the backend calls
      performed so far, and a computation either returns or panics.
      [defer] runs its deferred action when the body returns and when it
      panics, as Go does. *)

From Stdlib Require Import String Ascii List ZArith Bool Lia Permutation.
Import ListNotations.
Open Scope string_scope.

(** ** Go's [strings] package *)

Module strings.

(** [strings.HasPrefix(s, prefix)]:
    [len(s) >= len(prefix) && s[:len(prefix)] == prefix]. *)
Definition HasPrefix (s prefix : string) : bool :=
  (String.length prefix <=? String.length s)%nat
  && String.eqb (substring 0 (String.length prefix) s) prefix.

End strings.

(** ** Go's [time] package *)

Module time.

(** An instant, in nanoseconds on the wall clock. *)
Definition Time := Z.

(** [time.Duration] is an [int64] count of nanoseconds. *)
Definition Duration := Z.

Definition minDuration : Duration := (- 2 ^ 63)%Z.
Definition maxDuration : Duration := (2 ^ 63 - 1)%Z.
Definition Millisecond : Duration := 1000000%Z.

(** [t.Sub(u)]: the duration [t - u], saturated to the range of
    [Duration]. *)
Definition Sub (t u : Time) : Duration :=
  let d := (t - u)%Z in
  if (d <? minDuration)%Z then minDuration
  else if (maxDuration <? d)%Z then maxDuration
  else d.

End time.

(** ** The parsed operation of gqlparser *)

Module ast.

(** [ast.OperationDefinition], with its operation type and its declared
    name; the operation type [ast.Operation] is a string type ("query",
    "mutation", "subscription"). *)
Record OperationDefinition := {
  Operation : string;
  Name : string
}.

End ast.

(** ** The execution contexts of gqlgen *)

Module graphql.

Record TraceTiming := {
  Start : time.Time;
  Finish : time.Time          (* field [End] in Go *)
}.

Record Stats := {
  Parsing : TraceTiming;
  Validation : TraceTiming
}.

Record OperationContext := {
  RawQuery : string;
  OperationName : string;
  Operation : option ast.OperationDefinition;
  OperationStats : Stats      (* field [Stats] in Go *)
}.

(** A field context, with what the interceptors read of it:
    [fc.Field.Name], [fc.IsMethod] and the rendering [fc.Path().String()]
    of its path. *)
Record FieldContext := {
  FieldName : string;
  IsMethod : bool;
  PathString : string
}.

(** A [*gqlerror.Error], with its rendering [err.Error()]. *)
Record gqlerror := {
  ErrorText : string
}.

(** [gqlerror.List.Error()]: the renderings of the errors, each followed
    by a newline. *)
Definition newline : string := String (ascii_of_nat 10) EmptyString.

Fixpoint ListError (errs : list gqlerror) : string :=
  match errs with
  | [] => ""
  | e :: rest => ErrorText e ++ newline ++ ListError rest
  end.

Record Response := {
  Data : string;
  Errors : list gqlerror
}.

End graphql.

(** ** The opencensus backends: tags, measures, spans *)

Module tag.

(** A tag key, made by [tag.MustNewKey]. *)
Record Key := MustNewKey { KeyName : string }.

(** A tag mutator; the extensions only build [tag.Upsert(key, value)]. *)
Inductive Mutator :=
| Upsert (k : Key) (value : string).

End tag.

Module stats.

Inductive Unit_ := UnitDimensionless | UnitMilliseconds.

Inductive Kind := KInt64 | KFloat64.

Record Measure := {
  MeasureName : string;
  Description : string;
  MeasureUnit : Unit_;
  MeasureKind : Kind
}.

Definition Int64 (name description : string) (unit : Unit_) : Measure :=
  {| MeasureName := name; Description := description;
     MeasureUnit := unit; MeasureKind := KInt64 |}.

Definition Float64 (name description : string) (unit : Unit_) : Measure :=
  {| MeasureName := name; Description := description;
     MeasureUnit := unit; MeasureKind := KFloat64 |}.

(** The value of a measurement.  An integer measure takes an [int64].
    The float measures of the collector are always fed
    [float64(d) / float64(time.Millisecond)] for a duration [d]; the
    embedding keeps the duration [d], in nanoseconds, and leaves the
    floating-point quotient to the reader of the value. *)
Inductive Value :=
| IntValue (v : Z)
| MillisOf (d : time.Duration).

Record Measurement := {
  Of : Measure;
  Val : Value
}.

(** [m.M(v)] *)
Definition M (m : Measure) (v : Value) : Measurement :=
  {| Of := m; Val := v |}.

End stats.

Module trace.

Inductive SpanKind := SpanKindUnspecified | SpanKindServer | SpanKindClient.

(** [trace.StatusCodeUnknown] is 2. *)
Definition StatusCodeUnknown : Z := 2%Z.

Record Status := {
  Code : Z;
  Message : string
}.

(** A span attribute: a key and a value. *)
Inductive AttributeValue :=
| StringAttribute (s : string)
| BoolAttribute (b : bool)
| Int64Attribute (i : Z).

Record Attribute := {
  AttrKey : string;
  AttrValue : AttributeValue
}.

(** A span is known by its identifier. *)
Definition Span := nat.

End trace.

(** ** Effects *)

Module rt.

(** A [context.Context] as the host engine hands it to an interceptor:
    it carries the field context and the operation context of the
    current execution, and the current span if there is one. *)
Record Context := {
  fieldContext : graphql.FieldContext;
  operationContext : graphql.OperationContext;
  currentSpan : option trace.Span
}.

(** The calls an interceptor makes, in the order it makes them. *)
Inductive event :=
| StartSpan (s : trace.Span) (name : string) (kind : trace.SpanKind)
| AddAttributes (s : trace.Span) (attrs : list trace.Attribute)
| SetStatus (s : trace.Span) (st : trace.Status)
| EndSpan (s : trace.Span)
| RecordWithTags (tags : list tag.Mutator) (ms : list stats.Measurement)
| CallNext (ctx : Context).

Record world := {
  clock : time.Time;
  log : list event
}.

(** What a panic carries. *)
Inductive panicValue :=
| NilFunctionCall               (* a call through a nil func value *)
| Raised (v : string).          (* a panic raised by the wrapped handler *)

Inductive outcome (A : Type) :=
| Returned (a : A)
| Panicked (p : panicValue).

Arguments Returned {A} a.
Arguments Panicked {A} p.

Definition M (A : Type) := world -> outcome A * world.

Definition ret {A} (a : A) : M A := fun w => (Returned a, w).

Definition bind {A B} (m : M A) (k : A -> M B) : M B :=
  fun w =>
    match m w with
    | (Returned a, w') => k a w'
    | (Panicked p, w') => (Panicked p, w')
    end.

Definition panic {A} (p : panicValue) : M A := fun w => (Panicked p, w).

(** A call that touches neither the clock nor the log: it returns or
    panics. *)
Definition lift {A} (r : outcome A) : M A := fun w => (r, w).

Definition emit (e : event) : M unit :=
  fun w => (Returned tt, {| clock := clock w; log := log w ++ [e] |}).

(** [graphql.Now()] *)
Definition Now : M time.Time := fun w => (Returned (clock w), w).

(** [defer d; body]: [d] runs once [body] has returned or panicked; the
    outcome is the one of [body], unless [d] itself panics. *)
Definition defer {A} (d : M unit) (body : M A) : M A :=
  fun w =>
    let (r, w') := body w in
    match d w' with
    | (Returned _, w'') => (r, w'')
    | (Panicked p, w'') => (Panicked p, w'')
    end.

(** The wrapped handler ("next").  It is given the context, runs for
    some time, and returns or panics.  The log is the interceptor's
    own: of the wrapped handler it only records that it was called,
    and with which context. *)
Definition Handler (A : Type) := Context -> time.Time -> outcome A * time.Time.

Definition call {A} (next : Handler A) (ctx : Context) : M A :=
  fun w =>
    let (r, t') := next ctx (clock w) in
    (r, {| clock := t'; log := log w ++ [CallNext ctx] |}).

(** [trace.StartSpan(ctx, name, trace.WithSpanKind(kind))]: a fresh
    span, and the context that carries it. *)
Definition StartSpanIn (ctx : Context) (name : string) (kind : trace.SpanKind)
  : M (Context * trace.Span) :=
  fun w =>
    let s := List.length (log w) in
    (Returned ({| fieldContext := fieldContext ctx;
                  operationContext := operationContext ctx;
                  currentSpan := Some s |}, s),
     {| clock := clock w; log := log w ++ [StartSpan s name kind] |}).

(** [graphql.GetFieldContext(ctx)] and [graphql.GetOperationContext(ctx)] *)
Definition GetFieldContext (ctx : Context) : graphql.FieldContext :=
  fieldContext ctx.

Definition GetOperationContext (ctx : Context) : graphql.OperationContext :=
  operationContext ctx.

End rt.

Declare Scope go_scope.
Delimit Scope go_scope with go.
Notation "x <- c ;; k" := (rt.bind c (fun x => k))
  (at level 61, c at next level, right associativity) : go_scope.
Notation "c ;;; k" := (rt.bind c (fun _ => k))
  (at level 61, right associativity) : go_scope.

(** ** Package [metrics]: the measures and the collector *)

Module metrics.

Import rt.
Local Open Scope go_scope.

Definition extensionName : string := "OpencensusMetrics".

(** *** Measures and tag keys *)

(** [ServerRequestCount] tracks a count of GraphQL requests. *)
Definition ServerRequestCount : stats.Measure :=
  stats.Int64 "gql/server/request_count"
              "Number of GraphQL requests started"
              stats.UnitDimensionless.

(** [ServerFieldCount] tracks a count of GraphQL fields requested. *)
Definition ServerFieldCount : stats.Measure :=
  stats.Int64 "gql/server/field_count"
              "Number of GraphQL field resolutions, per field and query path"
              stats.UnitDimensionless.

(** [ServerErrorCount] tracks a count of request errors. *)
Definition ServerErrorCount : stats.Measure :=
  stats.Int64 "gql/server/request_count"
              "Number of GraphQL requests started"
              stats.UnitDimensionless.

(** [ServerLatency] tracks the execution time of requests. *)
Definition ServerLatency : stats.Measure :=
  stats.Float64 "gql/server/latency"
                "Execution latency"
                stats.UnitMilliseconds.

(** [ServerFieldLatency] tracks the execution time of single fields. *)
Definition ServerFieldLatency : stats.Measure :=
  stats.Float64 "gql/server/field_latency"
                "Single field execution latency"
                stats.UnitMilliseconds.

(** [ServerParsing] tracks the parsing and validation time. *)
Definition ServerParsing : stats.Measure :=
  stats.Float64 "gql/server/parsing_validation"
                "Parsing & validation latency"
                stats.UnitMilliseconds.

Definition TagHost : tag.Key := tag.MustNewKey "gql.host".
Definition TagOperation : tag.Key := tag.MustNewKey "gql.operation".
Definition TagField : tag.Key := tag.MustNewKey "gql.field".
Definition TagPath : tag.Key := tag.MustNewKey "gql.path".

(** *** Configuration *)

(** The configuration of a collector, with the two settings that
    extension.go reads.  Its declaration and the option setters are
    outside the source files at hand: an option is any function that
    updates a configuration. *)
Record config := {
  host : string;
  fieldsEnabled : bool
}.

Definition Option := config -> config.

(** A collector: its configuration and the two tagging closures, each of
    which may be nil. *)
Record Collector := {
  cfg : config;
  opTagger : option (string -> list tag.Mutator);
  fieldTagger : option (string -> string -> list tag.Mutator)
}.

(** [New(opts...)].  It starts from [defaultCollector()], which is
    outside the source files at hand and is an argument here.  The
    options are applied in order to the configuration, an empty host
    becomes "-", and the closures are built.  The configuration is not
    written again once [New] has returned, so a closure reads the host
    that [New] left in it. *)
Definition New (defaultCollector : Collector) (opts : list Option)
  : Collector :=
  let m := defaultCollector in
  let c := fold_left (fun c apply => apply c) opts (cfg m) in
  let c := if String.eqb (host c) ""
           then {| host := "-"; fieldsEnabled := fieldsEnabled c |}
           else c in
  {| cfg := c;
     opTagger := Some (fun opName =>
       [tag.Upsert TagHost (host c); tag.Upsert TagOperation opName]);
     fieldTagger :=
       if fieldsEnabled c
       then Some (fun fieldName pth =>
              [tag.Upsert TagHost (host c);
               tag.Upsert TagField fieldName;
               tag.Upsert TagPath pth])
       else fieldTagger m |}.

Definition ExtensionName (m : Collector) : string := extensionName.

(** *** Naming and tagging rules *)

Definition operationName (ctx : graphql.OperationContext) : string :=
  let opName := "" in
  let opName :=
    match graphql.Operation ctx with
    | Some op => ast.Name op
    | None => opName
    end in
  let opName :=
    match graphql.Operation ctx with
    | Some op => if String.eqb opName "" then ast.Operation op else opName
    | None => opName
    end in
  let opName :=
    if String.eqb opName "" then graphql.OperationName ctx else opName in
  opName.

Definition fieldTags (ctx : graphql.FieldContext) : string * string :=
  let pth := graphql.PathString ctx in
  if strings.HasPrefix pth "__schema"
  then ("[introspection]", "__schema")
  else (graphql.FieldName ctx, pth).

(** *** The interceptors *)

(** A call through a func value: a nil func value panics. *)
Definition callOpTagger (m : Collector) (opName : string)
  : M (list tag.Mutator) :=
  match opTagger m with
  | Some f => ret (f opName)
  | None => panic NilFunctionCall
  end.

Definition callFieldTagger (m : Collector) (ft : string * string)
  : M (list tag.Mutator) :=
  match fieldTagger m with
  | Some f => ret (f (fst ft) (snd ft))
  | None => panic NilFunctionCall
  end.

(** The result of a resolver: a value and an error, which may be nil. *)
Definition Resolved (V : Type) : Type := V * option string.

(** [Collector.InterceptField] *)
Definition InterceptField {V} (m : Collector) (ctx : Context)
           (next : Handler (Resolved V)) : M (Resolved V) :=
  if negb (fieldsEnabled (cfg m)) then call next ctx
  else
    let fc := GetFieldContext ctx in
    if negb (graphql.IsMethod fc) then call next ctx
    else
      start <- Now ;;
      defer
        (end_ <- Now ;;
         tags <- callFieldTagger m (fieldTags fc) ;;
         emit (RecordWithTags tags
                 [stats.M ServerFieldCount (stats.IntValue 1);
                  stats.M ServerFieldLatency
                          (stats.MillisOf (time.Sub end_ start))]))
        (call next ctx).

(** [Collector.InterceptResponse] *)
Definition InterceptResponse (m : Collector) (ctx : Context)
           (next : Handler (option graphql.Response))
  : M (option graphql.Response) :=
  let rc := GetOperationContext ctx in
  let opName := operationName rc in
  resp <- call next ctx ;;
  end_ <- Now ;;
  tags <- callOpTagger m opName ;;
  emit (RecordWithTags tags
          [stats.M ServerRequestCount (stats.IntValue 1);
           stats.M ServerParsing
             (stats.MillisOf
                (time.Sub
                   (graphql.Finish (graphql.Validation (graphql.OperationStats rc)))
                   (graphql.Start (graphql.Parsing (graphql.OperationStats rc)))));
           stats.M ServerLatency
             (stats.MillisOf
                (time.Sub end_
                   (graphql.Finish (graphql.Validation (graphql.OperationStats rc)))))]) ;;;
  match resp with
  | None => ret None
  | Some r =>
      (if negb (String.eqb (graphql.ListError (graphql.Errors r)) "")
       then tags <- callOpTagger m opName ;;
            emit (RecordWithTags tags
                    [stats.M ServerErrorCount (stats.IntValue 1)])
       else ret tt) ;;;
      ret (Some r)
  end.

End metrics.

(** ** Package [gqlopencensus]: the tracer *)

Module gqlopencensus.

Import rt.
Local Open Scope go_scope.

(** A func value that derives the attributes of a span.  It is set by
    the configuration and may be nil (as in the zero [Tracer{}]); it is
    code of the user, and a call of it returns attributes or panics. *)
Definition AttributeFunc (A : Type) : Type :=
  option (A -> outcome (list trace.Attribute)).

(** The configuration of a tracer, with the three settings that
    tracer.go reads; its declaration is outside the source files at
    hand. *)
Record config := {
  onlyMethods : bool;
  fieldAttributes : AttributeFunc graphql.FieldContext;
  operationAttributes : AttributeFunc graphql.OperationContext
}.

(** A call through an attribute func value: a nil func value panics. *)
Definition attributesOf {A} (f : AttributeFunc A) (a : A)
  : outcome (list trace.Attribute) :=
  match f with
  | Some g => g a
  | None => Panicked NilFunctionCall
  end.

(** [Tracer] embeds its configuration. *)
Record Tracer := {
  cfg : config
}.

Definition ExtensionName (tr : Tracer) : string := "Opencensustracing".

(** Modelled from the spec: the [operationName] of this package is
    outside the source files at hand.  The spec has one naming rule,
    "applied identically by both the tracing and metrics components":
    it is the rule of the collector. *)
Definition operationName (ctx : graphql.OperationContext) : string :=
  metrics.operationName ctx.

(** [Tracer.InterceptField] *)
Definition InterceptField {V} (tr : Tracer) (ctx : Context)
           (next : Handler (metrics.Resolved V)) : M (metrics.Resolved V) :=
  let fc := GetFieldContext ctx in
  if onlyMethods (cfg tr) && negb (graphql.IsMethod fc) then call next ctx
  else
    started <- StartSpanIn ctx (graphql.PathString fc) trace.SpanKindServer ;;
    let (ctx', span) := started in
    attrs <- lift (attributesOf (fieldAttributes (cfg tr)) fc) ;;
    emit (AddAttributes span attrs) ;;;
    defer (emit (EndSpan span))
          (call next ctx').

(** [Tracer.InterceptResponse] *)
Definition InterceptResponse (tr : Tracer) (ctx : Context)
           (next : Handler (option graphql.Response))
  : M (option graphql.Response) :=
  let oc := GetOperationContext ctx in
  started <- StartSpanIn ctx (operationName oc) trace.SpanKindServer ;;
  let (ctx', span) := started in
  defer (emit (EndSpan span))
        (attrs <- lift (attributesOf (operationAttributes (cfg tr)) oc) ;;
         emit (AddAttributes span attrs) ;;;
         resp <- call next ctx' ;;
         match resp with
         | None => ret None
         | Some r =>
             let errs := graphql.Errors r in
             (if (0 <? List.length errs)%nat
              then emit (SetStatus span
                           {| trace.Code := trace.StatusCodeUnknown;
                              trace.Message := graphql.ListError errs |})
              else ret tt) ;;;
             ret (Some r)
         end).

End gqlopencensus.

(** ** Reading a log *)

Module logs.

Import rt.

Definition isStartSpan (e : event) : bool :=
  match e with StartSpan _ _ _ => true | _ => false end.

Definition isEndSpan (e : event) : bool :=
  match e with EndSpan _ => true | _ => false end.

Definition isRecord (e : event) : bool :=
  match e with RecordWithTags _ _ => true | _ => false end.

Definition count (p : event -> bool) (l : list event) : nat :=
  List.length (filter p l).

(** Between the logs [before] and [after] one span was started, first,
    and that span was ended, last; no other span was started or ended
    in between. *)
Definition spanOnce (before after : list event) : Prop :=
  exists s name kind mid,
    after = (before ++ StartSpan s name kind :: mid ++ [EndSpan s])%list
    /\ count isStartSpan mid = 0%nat
    /\ count isEndSpan mid = 0%nat.

(** Between the logs [before] and [after] the measurements [ms] were
    recorded under the tags [tags], in one recording call, and nothing
    else was recorded. *)
Definition recordedOnce (tags : list tag.Mutator)
           (ms : list stats.Measurement) (before after : list event)
  : Prop :=
  exists pre post,
    after = (before ++ pre ++ RecordWithTags tags ms :: post)%list
    /\ count isRecord pre = 0%nat
    /\ count isRecord post = 0%nat.

(** What passing through to the wrapped handler does: the handler is
    called once with the context of the interceptor, its outcome is the
    outcome of the interception, and nothing else is logged. *)
Definition passedThrough {A} (next : Handler A) (ctx : Context)
           (w : world) (run : outcome A * world) : Prop :=
  run = (fst (next ctx (clock w)),
         {| clock := snd (next ctx (clock w));
            log := (log w ++ [CallNext ctx])%list |}).

(** The context that carries the span started at the end of the log of
    [w]. *)
Definition withSpan (ctx : Context) (w : world) : Context :=
  {| fieldContext := fieldContext ctx;
     operationContext := operationContext ctx;
     currentSpan := Some (List.length (log w)) |}.

(** The three measurements of an operation: the request count, the
    parsing and validation latency, the execution latency up to
    [end_]. *)
Definition operationMeasurements (rc : graphql.OperationContext)
           (end_ : time.Time) : list stats.Measurement :=
  let validated :=
    graphql.Finish (graphql.Validation (graphql.OperationStats rc)) in
  [stats.M metrics.ServerRequestCount (stats.IntValue 1);
   stats.M metrics.ServerParsing
     (stats.MillisOf
        (time.Sub validated
           (graphql.Start (graphql.Parsing (graphql.OperationStats rc)))));
   stats.M metrics.ServerLatency
     (stats.MillisOf (time.Sub end_ validated))].

(** The two measurements of a field resolved between [start] and
    [end_]. *)
Definition fieldMeasurements (start end_ : time.Time)
  : list stats.Measurement :=
  [stats.M metrics.ServerFieldCount (stats.IntValue 1);
   stats.M metrics.ServerFieldLatency
     (stats.MillisOf (time.Sub end_ start))].

(** The tags of a collector for an operation and for a field. *)
Definition operationTagSet (m : metrics.Collector) (opName : string)
  : list tag.Mutator :=
  [tag.Upsert metrics.TagHost (metrics.host (metrics.cfg m));
   tag.Upsert metrics.TagOperation opName].

Definition fieldTagSet (m : metrics.Collector) (ft : string * string)
  : list tag.Mutator :=
  [tag.Upsert metrics.TagHost (metrics.host (metrics.cfg m));
   tag.Upsert metrics.TagField (fst ft);
   tag.Upsert metrics.TagPath (snd ft)].

End logs.

(** ** Sample inputs *)

Module sample.

Import rt.

Definition timing : graphql.Stats :=
  {| graphql.Parsing := {| graphql.Start := 100%Z; graphql.Finish := 160%Z |};
     graphql.Validation := {| graphql.Start := 160%Z; graphql.Finish := 250%Z |} |}.

(** The operation context of the test of the collector: no parsed
    operation, the raw name "test". *)
Definition opCtx : graphql.OperationContext :=
  {| graphql.RawQuery := "query{}";
     graphql.OperationName := "test";
     graphql.Operation := None;
     graphql.OperationStats := timing |}.

Definition namedOpCtx : graphql.OperationContext :=
  {| graphql.RawQuery := "query Q {a}";
     graphql.OperationName := "raw";
     graphql.Operation :=
       Some {| ast.Operation := "query"; ast.Name := "Q" |};
     graphql.OperationStats := timing |}.

Definition anonymousOpCtx : graphql.OperationContext :=
  {| graphql.RawQuery := "mutation {a}";
     graphql.OperationName := "raw";
     graphql.Operation :=
       Some {| ast.Operation := "mutation"; ast.Name := "" |};
     graphql.OperationStats := timing |}.

Definition untypedOpCtx : graphql.OperationContext :=
  {| graphql.RawQuery := "{a}";
     graphql.OperationName := "raw";
     graphql.Operation :=
       Some {| ast.Operation := ""; ast.Name := "" |};
     graphql.OperationStats := timing |}.

Definition unnamedOpCtx : graphql.OperationContext :=
  {| graphql.RawQuery := "{a}";
     graphql.OperationName := "";
     graphql.Operation := None;
     graphql.OperationStats := timing |}.

Definition userField : graphql.FieldContext :=
  {| graphql.FieldName := "user";
     graphql.IsMethod := true;
     graphql.PathString := "query/user" |}.

Definition propertyField : graphql.FieldContext :=
  {| graphql.FieldName := "id";
     graphql.IsMethod := false;
     graphql.PathString := "query/user/id" |}.

Definition schemaField : graphql.FieldContext :=
  {| graphql.FieldName := "types";
     graphql.IsMethod := true;
     graphql.PathString := "__schema.types[3]" |}.

Definition ctxOf (fc : graphql.FieldContext) : Context :=
  {| fieldContext := fc; operationContext := opCtx; currentSpan := None |}.

Definition userCtx : Context := ctxOf userField.

Definition propertyCtx : Context := ctxOf propertyField.

(** The context the tracer hands on when it starts its span in an
    empty log. *)
Definition tracedUserCtx : Context :=
  {| fieldContext := userField; operationContext := opCtx;
     currentSpan := Some 0%nat |}.

Definition hostTags : list tag.Mutator :=
  [tag.Upsert metrics.TagHost "-"; tag.Upsert metrics.TagOperation "test"].

Definition w0 : world := {| clock := 1000%Z; log := [] |}.

(** A resolver that takes 5 ns and returns 42 without error. *)
Definition resolver : Handler (metrics.Resolved Z) :=
  fun _ t => (Returned (42%Z, None), (t + 5)%Z).

Definition failed : graphql.Response :=
  {| graphql.Data := "null";
     graphql.Errors := [ {| graphql.ErrorText := "input: boom" |} ] |}.

(** Response handlers that take 7 ns: one returns a response with an
    error, one returns nil. *)
Definition failing : Handler (option graphql.Response) :=
  fun _ t => (Returned (Some failed), (t + 7)%Z).

Definition silent : Handler (option graphql.Response) :=
  fun _ t => (Returned None, (t + 7)%Z).

Definition noAttributes : gqlopencensus.config :=
  {| gqlopencensus.onlyMethods := true;
     gqlopencensus.fieldAttributes := Some (fun _ => Returned []);
     gqlopencensus.operationAttributes := Some (fun _ => Returned []) |}.

Definition tracer : gqlopencensus.Tracer :=
  {| gqlopencensus.cfg := noAttributes |}.

Definition bare (fields : bool) : metrics.Collector :=
  {| metrics.cfg := {| metrics.host := ""; metrics.fieldsEnabled := fields |};
     metrics.opTagger := None;
     metrics.fieldTagger := None |}.

(** Collectors made by [New] without option, with field metrics on and
    off by default. *)
Definition collector : metrics.Collector := metrics.New (bare true) [].

Definition collectorWithoutFields : metrics.Collector :=
  metrics.New (bare false) [].

End sample.

(** ** The views of package [metrics] *)

Module view.

(** The aggregations the collector declares: [view.Count()] and
    [view.Distribution(bounds...)].  The bounds are [float64] in Go; the
    ones declared below are whole numbers and are kept as integers. *)
Inductive AggregationData :=
| Count
| Distribution (bounds : list Z).

Record View := {
  Name : string;
  Description : string;
  Measure : stats.Measure;
  Aggregation : AggregationData;
  TagKeys : list tag.Key
}.

End view.

Module views.

(** [DefaultLatencyDistribution] constructs buckets for latency
    distributions in views. *)
Definition DefaultLatencyDistribution : view.AggregationData :=
  view.Distribution
    [1; 2; 3; 4; 5; 6; 8; 10; 13; 16; 20; 25; 30; 40; 50; 65; 80; 100; 130;
     160; 200; 250; 300; 400; 500; 650; 800; 1000; 2000; 5000; 10000; 20000;
     50000; 100000]%Z.

(** [OperationCountView] reports a count of operations tagged by host and
    operation name. *)
Definition OperationCountView : view.View :=
  {| view.Name := "gql/server/operation_count";
     view.Description := "Count of GraphQL requests started by operation";
     view.Measure := metrics.ServerRequestCount;
     view.Aggregation := view.Count;
     view.TagKeys := [metrics.TagHost; metrics.TagOperation] |}.

(** [FieldCountView] reports a count of requested fields tagged by host,
    field name and query path. *)
Definition FieldCountView : view.View :=
  {| view.Name := "gql/server/field_count";
     view.Description :=
       "Count of GraphQL fields requests by field and by query path";
     view.Measure := metrics.ServerFieldCount;
     view.Aggregation := view.Count;
     view.TagKeys := [metrics.TagHost; metrics.TagField; metrics.TagPath] |}.

(** [OperationErrorsView] reports a count of errors tagged by host and
    operation name. *)
Definition OperationErrorsView : view.View :=
  {| view.Name := "gql/server/error_count";
     view.Description :=
       "Count of GraphQL requests returning an error by operation";
     view.Measure := metrics.ServerErrorCount;
     view.Aggregation := view.Count;
     view.TagKeys := [metrics.TagHost; metrics.TagOperation] |}.

(** [OperationLatencyView] reports a distribution of execution time of
    GraphQL operations, by host and operation. *)
Definition OperationLatencyView : view.View :=
  {| view.Name := "gql/server/latency";
     view.Description :=
       "Execution time distribution of GraphQL requests by operation, excluding parsing and validation";
     view.Measure := metrics.ServerLatency;
     view.Aggregation := DefaultLatencyDistribution;
     view.TagKeys := [metrics.TagHost; metrics.TagOperation] |}.

(** [FieldLatencyView] reports a distribution of field retrieval time, by
    field, query path, and host. *)
Definition FieldLatencyView : view.View :=
  {| view.Name := "gql/server/field_latency";
     view.Description :=
       "Execution time distribution of GraphQL requests by operation, excluding parsing and validation";
     view.Measure := metrics.ServerFieldLatency;
     view.Aggregation := DefaultLatencyDistribution;
     view.TagKeys := [metrics.TagHost; metrics.TagField; metrics.TagPath] |}.

(** [OperationParsingView] reports a distribution of GraphQL parsing and
    validation time. *)
Definition OperationParsingView : view.View :=
  {| view.Name := "gql/server/parsing_validation";
     view.Description :=
       "Parsing  and validation time distribution of GraphQL requests by operation";
     view.Measure := metrics.ServerParsing;
     view.Aggregation := DefaultLatencyDistribution;
     view.TagKeys := [metrics.TagHost; metrics.TagOperation] |}.

(** [GQLViews] contains all the views declared by the collector. *)
Definition GQLViews : list view.View :=
  [OperationCountView;
   FieldCountView;
   OperationErrorsView;
   OperationLatencyView;
   FieldLatencyView;
   OperationParsingView].

End views.

(** ** Reading a run *)

Module observe.

Import rt.

(** The events a run added to the log: those of [after] beyond the ones
    of [before]. *)
Definition since (before after : world) : list event :=
  skipn (List.length (log before)) (log after).

(** The contexts the wrapped handler was called with, call by call. *)
Fixpoint callsIn (l : list event) : list Context :=
  match l with
  | [] => []
  | CallNext ctx :: rest => ctx :: callsIn rest
  | _ :: rest => callsIn rest
  end.

(** The statuses set on spans, in order. *)
Fixpoint statusesIn (l : list event) : list trace.Status :=
  match l with
  | [] => []
  | SetStatus _ st :: rest => st :: statusesIn rest
  | _ :: rest => statusesIn rest
  end.

(** The recording calls, in order: each with its tags and measurements. *)
Fixpoint recordsIn (l : list event)
  : list (list tag.Mutator * list stats.Measurement) :=
  match l with
  | [] => []
  | RecordWithTags tags ms :: rest => (tags, ms) :: recordsIn rest
  | _ :: rest => recordsIn rest
  end.

(** The key a mutator writes. *)
Definition keyOf (mu : tag.Mutator) : tag.Key :=
  match mu with tag.Upsert k _ => k end.

(** The declared views that aggregate a measure; a view is bound to its
    measure by the name of the measure. *)
Definition viewsOn (m : stats.Measure) : list view.View :=
  filter (fun v => String.eqb (stats.MeasureName (view.Measure v))
                              (stats.MeasureName m))
         views.GQLViews.

(** What is asked of one recording call: each of its measurements has a
    declared view, and every declared view on it groups by the keys the
    call was tagged with, whatever the order in which the view lists
    them (registering a view sorts its keys). *)
Definition aggregated (record : list tag.Mutator * list stats.Measurement)
  : Prop :=
  Forall (fun mm =>
            viewsOn (stats.Of mm) <> []
            /\ Forall (fun v => Permutation (view.TagKeys v)
                                            (map keyOf (fst record)))
                      (viewsOn (stats.Of mm)))
         (snd record).

(** Strictly ascending bounds. *)
Fixpoint ascending (bounds : list Z) : bool :=
  match bounds with
  | [] => true
  | b :: rest =>
      match rest with
      | [] => true
      | b' :: _ => (b <? b')%Z && ascending rest
      end
  end.

(** The tracer passes a field through when only-method mode is on and the
    field is not method-backed. *)
Definition skipped (tr : gqlopencensus.Tracer) (ctx : Context) : bool :=
  gqlopencensus.onlyMethods (gqlopencensus.cfg tr)
  && negb (graphql.IsMethod (fieldContext ctx)).

End observe.

(** ** More sample inputs *)

Module scenario.

Import rt.

(** A response handler that panics after 3 ns. *)
Definition crashing : Handler (option graphql.Response) :=
  fun _ t => (Panicked (Raised "boom"), (t + 3)%Z).

(** The zero tracer, [Tracer{}]: every field is traced and the attribute
    functions are nil. *)
Definition zeroTracer : gqlopencensus.Tracer :=
  {| gqlopencensus.cfg :=
       {| gqlopencensus.onlyMethods := false;
          gqlopencensus.fieldAttributes := None;
          gqlopencensus.operationAttributes := None |} |}.

End scenario.

(** * Properties *)

Import rt.

(** ** Strings *)

Lemma substring_prefix_app (p t : string) :
  substring 0 (String.length p) (p ++ t) = p.
Proof.
  induction p as [|c p IH]; simpl.
  - now destruct t.
  - now rewrite IH.
Qed.

Lemma length_app (p t : string) :
  String.length (p ++ t) = (String.length p + String.length t)%nat.
Proof.
  induction p as [|c p IH]; simpl; [reflexivity | now rewrite IH].
Qed.

Lemma substring_prefix_split (p s : string) :
  substring 0 (String.length p) s = p -> exists t, s = p ++ t.
Proof.
  revert s; induction p as [|c p IH]; intros s H; simpl in *.
  - now exists s.
  - destruct s as [|d s]; [discriminate|].
    injection H as -> H.
    destruct (IH _ H) as [t ->].
    now exists t.
Qed.

(** [strings.HasPrefix] decides "begins with". *)
Lemma HasPrefix_true_iff (s p : string) :
  strings.HasPrefix s p = true <-> exists t, s = p ++ t.
Proof.
  unfold strings.HasPrefix. rewrite andb_true_iff, Nat.leb_le, String.eqb_eq.
  split.
  - intros [_ H]. now apply substring_prefix_split.
  - intros [t ->]. split.
    + rewrite length_app. lia.
    + apply substring_prefix_app.
Qed.

Lemma HasPrefix_false_iff (s p : string) :
  strings.HasPrefix s p = false <-> forall t, s <> p ++ t.
Proof.
  split.
  - intros H t E.
    assert (strings.HasPrefix s p = true) by (apply HasPrefix_true_iff; eauto).
    congruence.
  - intros H. destruct (strings.HasPrefix s p) eqn:E; [|reflexivity].
    apply HasPrefix_true_iff in E as [t E]. now destruct (H t).
Qed.

Lemma eqb_empty_false (s : string) : s <> "" -> String.eqb s "" = false.
Proof. intros H. now apply String.eqb_neq. Qed.

(** The rendering of a non-empty error list is not empty: each error is
    followed by a newline. *)
Lemma ListError_nonempty (errs : list graphql.gqlerror) :
  errs <> [] -> graphql.ListError errs <> "".
Proof.
  destruct errs as [|e rest]; [congruence|].
  intros _. simpl. destruct (graphql.ErrorText e); discriminate.
Qed.

(** What a run added to a log. *)
Lemma since_app (w : world) (t : time.Time) (l : list event) :
  observe.since w {| clock := t; log := (log w ++ l)%list |} = l.
Proof.
  unfold observe.since. cbn.
  induction (log w) as [|e l0 IH]; [reflexivity | exact IH].
Qed.

(** ** The naming rule *)

Section OperationNaming.

Variable ctx : graphql.OperationContext.

Lemma operationName_declared (op : ast.OperationDefinition) :
  graphql.Operation ctx = Some op ->
  ast.Name op <> "" ->
  metrics.operationName ctx = ast.Name op.
Proof.
  intros Hop Hname. unfold metrics.operationName. rewrite Hop.
  now rewrite (eqb_empty_false _ Hname), (eqb_empty_false _ Hname).
Qed.

Lemma operationName_type (op : ast.OperationDefinition) :
  graphql.Operation ctx = Some op ->
  ast.Name op = "" ->
  ast.Operation op <> "" ->
  metrics.operationName ctx = ast.Operation op.
Proof.
  intros Hop Hname Hty. unfold metrics.operationName. rewrite Hop, Hname.
  simpl. now rewrite (eqb_empty_false _ Hty).
Qed.

Lemma operationName_untyped (op : ast.OperationDefinition) :
  graphql.Operation ctx = Some op ->
  ast.Name op = "" ->
  ast.Operation op = "" ->
  metrics.operationName ctx = graphql.OperationName ctx.
Proof.
  intros Hop Hname Hty. unfold metrics.operationName.
  now rewrite Hop, Hname, Hty.
Qed.

Lemma operationName_raw :
  graphql.Operation ctx = None ->
  metrics.operationName ctx = graphql.OperationName ctx.
Proof.
  intros Hop. unfold metrics.operationName. now rewrite Hop.
Qed.

End OperationNaming.

(** C1.  The resolved operation name follows the precedence of the naming
    rule: the declared name of the parsed operation when it is not empty;
    otherwise the operation type of the parsed operation, as a string,
    when an operation was parsed (and that string is not empty: an empty
    one falls through like an empty name); otherwise the raw operation
    name of the request; and the empty string when that one is empty
    too. *)
Theorem operationName_precedence (ctx : graphql.OperationContext) :
  (forall op, graphql.Operation ctx = Some op ->
              ast.Name op <> "" ->
              metrics.operationName ctx = ast.Name op)
  /\ (forall op, graphql.Operation ctx = Some op ->
                 ast.Name op = "" ->
                 ast.Operation op <> "" ->
                 metrics.operationName ctx = ast.Operation op)
  /\ (forall op, graphql.Operation ctx = Some op ->
                 ast.Name op = "" ->
                 ast.Operation op = "" ->
                 metrics.operationName ctx = graphql.OperationName ctx)
  /\ (graphql.Operation ctx = None ->
      metrics.operationName ctx = graphql.OperationName ctx)
  /\ (graphql.Operation ctx = None ->
      graphql.OperationName ctx = "" ->
      metrics.operationName ctx = "").
Proof.
  repeat split.
  - apply operationName_declared.
  - apply operationName_type.
  - apply operationName_untyped.
  - apply operationName_raw.
  - intros Hop Hraw. now rewrite operationName_raw.
Qed.

(** ** The tagging rules *)

(** C3.  A field context whose path begins with "__schema" is tagged with
    the field name "[introspection]" and the path "__schema", whatever
    follows the marker in the path; every other field context is tagged
    with its field name and its full path. *)
Theorem fieldTags_introspection (fc : graphql.FieldContext) :
  (forall suffix,
      graphql.PathString fc = "__schema" ++ suffix ->
      metrics.fieldTags fc = ("[introspection]", "__schema"))
  /\ ((forall suffix, graphql.PathString fc <> "__schema" ++ suffix) ->
      metrics.fieldTags fc = (graphql.FieldName fc, graphql.PathString fc)).
Proof.
  unfold metrics.fieldTags. split.
  - intros suffix H.
    assert (E : strings.HasPrefix (graphql.PathString fc) "__schema" = true)
      by (apply HasPrefix_true_iff; eauto).
    now rewrite E.
  - intros H. apply HasPrefix_false_iff in H. now rewrite H.
Qed.

(** ** The measure declarations *)

(** C8, as the declarations have it.  The error-count measure shares the
    name "gql/server/request_count" with the request-count measure; the
    field-count measure does not, its name is "gql/server/field_count". *)
Theorem measure_names :
  stats.MeasureName metrics.ServerErrorCount = "gql/server/request_count"
  /\ stats.MeasureName metrics.ServerRequestCount = "gql/server/request_count"
  /\ stats.MeasureName metrics.ServerFieldCount = "gql/server/field_count"
  /\ stats.MeasureName metrics.ServerFieldCount
     <> stats.MeasureName metrics.ServerRequestCount.
Proof.
  repeat split. discriminate.
Qed.

(** The field-count measure does not share the name of the request-count
    measure. *)
Lemma field_count_name_differs :
  ~ (stats.MeasureName metrics.ServerFieldCount = "gql/server/request_count"
     /\ stats.MeasureName metrics.ServerErrorCount = "gql/server/request_count").
Proof.
  intros [H _]. discriminate H.
Qed.

(** The error-count and request-count declarations agree on every
    argument, so they denote one measure. *)
Remark error_count_is_request_count :
  metrics.ServerErrorCount = metrics.ServerRequestCount.
Proof. reflexivity. Qed.

(** ** Collectors made by [New] *)

Section NewCollector.

Variable defaultCollector : metrics.Collector.
Variable opts : list metrics.Option.

Let m := metrics.New defaultCollector opts.

Lemma New_host_nonempty : metrics.host (metrics.cfg m) <> "".
Proof.
  unfold m, metrics.New. simpl.
  destruct (String.eqb _ "") eqn:E; simpl.
  - discriminate.
  - now apply String.eqb_neq.
Qed.

Lemma New_opTagger (opName : string) (w : world) :
  metrics.callOpTagger m opName w
  = (Returned [tag.Upsert metrics.TagHost (metrics.host (metrics.cfg m));
               tag.Upsert metrics.TagOperation opName], w).
Proof. reflexivity. Qed.

Lemma New_fieldTagger (fieldName pth : string) (w : world) :
  metrics.fieldsEnabled (metrics.cfg m) = true ->
  metrics.callFieldTagger m (fieldName, pth) w
  = (Returned [tag.Upsert metrics.TagHost (metrics.host (metrics.cfg m));
               tag.Upsert metrics.TagField fieldName;
               tag.Upsert metrics.TagPath pth], w).
Proof.
  unfold m, metrics.callFieldTagger, metrics.New. simpl.
  intros ->. reflexivity.
Qed.

Lemma New_fieldTagger_unset :
  metrics.fieldTagger defaultCollector = None ->
  metrics.fieldsEnabled (metrics.cfg m) = false ->
  metrics.fieldTagger m = None.
Proof.
  unfold m, metrics.New. simpl. intros Hd ->. exact Hd.
Qed.

End NewCollector.

(** C10.  For a collector made by [New], the operation tagging closure
    returns exactly two mutators, host then operation, for every
    operation name; when field metrics are enabled the field tagging
    closure returns exactly three mutators, host, field, path; and the
    host value they carry is never the empty string. *)
Theorem New_taggers (defaultCollector : metrics.Collector)
        (opts : list metrics.Option) :
  let m := metrics.New defaultCollector opts in
  metrics.host (metrics.cfg m) <> ""
  /\ (forall opName w,
         metrics.callOpTagger m opName w
         = (Returned (logs.operationTagSet m opName), w)
         /\ List.length (logs.operationTagSet m opName) = 2%nat)
  /\ (metrics.fieldsEnabled (metrics.cfg m) = true ->
      forall fieldName pth w,
        metrics.callFieldTagger m (fieldName, pth) w
        = (Returned (logs.fieldTagSet m (fieldName, pth)), w)
        /\ List.length (logs.fieldTagSet m (fieldName, pth)) = 3%nat).
Proof.
  intros m. split; [|split].
  - apply New_host_nonempty.
  - intros opName w. split; [apply New_opTagger | reflexivity].
  - intros Hon fieldName pth w. split; [|reflexivity].
    now apply New_fieldTagger.
Qed.

(** ** Field interception *)

Section FieldInterception.

Variable V : Type.
Variable ctx : Context.
Variable next : Handler (metrics.Resolved V).
Variable w : world.

Lemma call_passedThrough : logs.passedThrough next ctx w (call next ctx w).
Proof.
  unfold logs.passedThrough, call. now destruct (next ctx (clock w)).
Qed.

Lemma tracer_field_skipped (tr : gqlopencensus.Tracer) :
  gqlopencensus.onlyMethods (gqlopencensus.cfg tr) = true ->
  graphql.IsMethod (fieldContext ctx) = false ->
  logs.passedThrough next ctx w (gqlopencensus.InterceptField tr ctx next w).
Proof.
  intros Honly Hm. unfold gqlopencensus.InterceptField, GetFieldContext.
  rewrite Honly, Hm. apply call_passedThrough.
Qed.

Lemma collector_field_not_method (m : metrics.Collector) :
  graphql.IsMethod (fieldContext ctx) = false ->
  logs.passedThrough next ctx w (metrics.InterceptField m ctx next w).
Proof.
  intros Hm. unfold metrics.InterceptField, GetFieldContext.
  rewrite Hm. destruct (metrics.fieldsEnabled _); apply call_passedThrough.
Qed.

Lemma collector_field_disabled (m : metrics.Collector) :
  metrics.fieldsEnabled (metrics.cfg m) = false ->
  logs.passedThrough next ctx w (metrics.InterceptField m ctx next w).
Proof.
  intros Hoff. unfold metrics.InterceptField.
  rewrite Hoff. apply call_passedThrough.
Qed.

(** A traced field: the span is started, the attributes are derived and
    attached, the resolver runs with the context that carries the span,
    and the span is ended, whatever the outcome of the resolver. *)
Lemma tracer_field_traced (tr : gqlopencensus.Tracer)
      (attrs : list trace.Attribute) :
  gqlopencensus.onlyMethods (gqlopencensus.cfg tr)
    && negb (graphql.IsMethod (fieldContext ctx)) = false ->
  gqlopencensus.attributesOf
    (gqlopencensus.fieldAttributes (gqlopencensus.cfg tr)) (fieldContext ctx)
  = Returned attrs ->
  let s := List.length (log w) in
  let ctx' := logs.withSpan ctx w in
  gqlopencensus.InterceptField tr ctx next w
  = (fst (next ctx' (clock w)),
     {| clock := snd (next ctx' (clock w));
        log := (log w ++
                [StartSpan s (graphql.PathString (fieldContext ctx))
                           trace.SpanKindServer;
                 AddAttributes s attrs;
                 CallNext ctx';
                 EndSpan s])%list |}).
Proof.
  intros Hcond Hattrs s ctx'.
  unfold gqlopencensus.InterceptField, GetFieldContext. rewrite Hcond.
  subst s ctx'. unfold logs.withSpan.
  unfold bind, StartSpanIn, lift, emit, defer, call. cbn.
  rewrite Hattrs.
  destruct (next _ (clock w)) as [r t']. cbn.
  now rewrite <- !app_assoc.
Qed.

(** A field whose attribute function panics: the span is started, the
    panic leaves the interceptor before the end of the span is deferred,
    and the resolver is not called. *)
Lemma tracer_field_attributes_panic (tr : gqlopencensus.Tracer)
      (p : panicValue) :
  gqlopencensus.onlyMethods (gqlopencensus.cfg tr)
    && negb (graphql.IsMethod (fieldContext ctx)) = false ->
  gqlopencensus.attributesOf
    (gqlopencensus.fieldAttributes (gqlopencensus.cfg tr)) (fieldContext ctx)
  = Panicked p ->
  gqlopencensus.InterceptField tr ctx next w
  = (Panicked p,
     {| clock := clock w;
        log := (log w ++
                [StartSpan (List.length (log w))
                           (graphql.PathString (fieldContext ctx))
                           trace.SpanKindServer])%list |}).
Proof.
  intros Hcond Hattrs.
  unfold gqlopencensus.InterceptField, GetFieldContext. rewrite Hcond.
  unfold bind, StartSpanIn, lift, emit, defer, call. cbn.
  now rewrite Hattrs.
Qed.

(** A measured field: the resolver runs, then the count and the latency
    are recorded, whatever the outcome of the resolver. *)
Lemma collector_field_measured (m : metrics.Collector)
      (f : string -> string -> list tag.Mutator) :
  metrics.fieldsEnabled (metrics.cfg m) = true ->
  graphql.IsMethod (fieldContext ctx) = true ->
  metrics.fieldTagger m = Some f ->
  let ft := metrics.fieldTags (fieldContext ctx) in
  metrics.InterceptField m ctx next w
  = (fst (next ctx (clock w)),
     {| clock := snd (next ctx (clock w));
        log := (log w ++
                [CallNext ctx;
                 RecordWithTags (f (fst ft) (snd ft))
                   (logs.fieldMeasurements (clock w)
                      (snd (next ctx (clock w))))])%list |}).
Proof.
  intros Hon Hm Hf ft.
  unfold metrics.InterceptField, GetFieldContext. rewrite Hon, Hm. cbn.
  unfold bind, Now, defer, call, emit, metrics.callFieldTagger. cbn.
  rewrite Hf. subst ft.
  destruct (next ctx (clock w)) as [r t']. cbn.
  now rewrite <- !app_assoc.
Qed.

End FieldInterception.

(** ** Operation interception *)

Section ResponseInterception.

Variable ctx : Context.
Variable next : Handler (option graphql.Response).
Variable w : world.

Let rc := operationContext ctx.
Let s := List.length (log w).
Let ctx' := logs.withSpan ctx w.

(** The tracer, with an attribute function that returns [attrs] for the
    operation context. *)

Variable tr : gqlopencensus.Tracer.
Variable attrs : list trace.Attribute.
Hypothesis Hattrs :
  gqlopencensus.attributesOf
    (gqlopencensus.operationAttributes (gqlopencensus.cfg tr)) rc
  = Returned attrs.

(** The events of the tracer up to the call of the wrapped handler. *)
Let opened : list event :=
  [StartSpan s (gqlopencensus.operationName rc) trace.SpanKindServer;
   AddAttributes s attrs;
   CallNext ctx'].

Lemma tracer_response_nil (t' : time.Time) :
  next ctx' (clock w) = (Returned None, t') ->
  gqlopencensus.InterceptResponse tr ctx next w
  = (Returned None,
     {| clock := t'; log := (log w ++ opened ++ [EndSpan s])%list |}).
Proof.
  intros Hnext. subst opened ctx' s rc.
  unfold gqlopencensus.InterceptResponse, GetOperationContext.
  unfold bind, StartSpanIn, lift, emit, defer, call, ret. cbn.
  rewrite Hattrs. cbn.
  unfold logs.withSpan in Hnext. rewrite Hnext. cbn.
  now rewrite <- !app_assoc.
Qed.

Lemma tracer_response_panic (t' : time.Time) (p : panicValue) :
  next ctx' (clock w) = (Panicked p, t') ->
  gqlopencensus.InterceptResponse tr ctx next w
  = (Panicked p,
     {| clock := t'; log := (log w ++ opened ++ [EndSpan s])%list |}).
Proof.
  intros Hnext. subst opened ctx' s rc.
  unfold gqlopencensus.InterceptResponse, GetOperationContext.
  unfold bind, StartSpanIn, lift, emit, defer, call, ret. cbn.
  rewrite Hattrs. cbn.
  unfold logs.withSpan in Hnext. rewrite Hnext. cbn.
  now rewrite <- !app_assoc.
Qed.

Lemma tracer_response_clean (t' : time.Time) (resp : graphql.Response) :
  next ctx' (clock w) = (Returned (Some resp), t') ->
  graphql.Errors resp = [] ->
  gqlopencensus.InterceptResponse tr ctx next w
  = (Returned (Some resp),
     {| clock := t'; log := (log w ++ opened ++ [EndSpan s])%list |}).
Proof.
  intros Hnext Herrs. subst opened ctx' s rc.
  unfold gqlopencensus.InterceptResponse, GetOperationContext.
  unfold bind, StartSpanIn, lift, emit, defer, call, ret. cbn.
  rewrite Hattrs. cbn.
  unfold logs.withSpan in Hnext. rewrite Hnext. cbn.
  rewrite Herrs. cbn.
  now rewrite <- !app_assoc.
Qed.

Lemma tracer_response_errors (t' : time.Time) (resp : graphql.Response) :
  next ctx' (clock w) = (Returned (Some resp), t') ->
  graphql.Errors resp <> [] ->
  gqlopencensus.InterceptResponse tr ctx next w
  = (Returned (Some resp),
     {| clock := t';
        log := (log w ++ opened ++
                [SetStatus s
                   {| trace.Code := trace.StatusCodeUnknown;
                      trace.Message :=
                        graphql.ListError (graphql.Errors resp) |};
                 EndSpan s])%list |}).
Proof.
  intros Hnext Herrs. subst opened ctx' s rc.
  unfold gqlopencensus.InterceptResponse, GetOperationContext.
  unfold bind, StartSpanIn, lift, emit, defer, call, ret. cbn.
  rewrite Hattrs. cbn.
  unfold logs.withSpan in Hnext. rewrite Hnext. cbn.
  destruct (graphql.Errors resp) as [|e rest]; [congruence|]. cbn.
  now rewrite <- !app_assoc.
Qed.

(** The collector, with an operation tagging closure [f]. *)

Variable m : metrics.Collector.
Variable f : string -> list tag.Mutator.
Hypothesis Hf : metrics.opTagger m = Some f.

Let opName := metrics.operationName rc.

Lemma collector_response_nil (t' : time.Time) :
  next ctx (clock w) = (Returned None, t') ->
  metrics.InterceptResponse m ctx next w
  = (Returned None,
     {| clock := t';
        log := (log w ++
                [CallNext ctx;
                 RecordWithTags (f opName)
                   (logs.operationMeasurements rc t')])%list |}).
Proof.
  intros Hnext. subst opName rc.
  unfold metrics.InterceptResponse, GetOperationContext.
  unfold bind, Now, emit, call, ret, metrics.callOpTagger. cbn.
  rewrite Hnext, Hf. cbn.
  now rewrite <- !app_assoc.
Qed.

Lemma collector_response_clean (t' : time.Time) (resp : graphql.Response) :
  next ctx (clock w) = (Returned (Some resp), t') ->
  graphql.Errors resp = [] ->
  metrics.InterceptResponse m ctx next w
  = (Returned (Some resp),
     {| clock := t';
        log := (log w ++
                [CallNext ctx;
                 RecordWithTags (f opName)
                   (logs.operationMeasurements rc t')])%list |}).
Proof.
  intros Hnext Herrs. subst opName rc.
  unfold metrics.InterceptResponse, GetOperationContext.
  unfold bind, Now, emit, call, ret, metrics.callOpTagger. cbn.
  rewrite Hnext, Hf. cbn. rewrite Herrs. cbn.
  now rewrite <- !app_assoc.
Qed.

Lemma collector_response_errors (t' : time.Time) (resp : graphql.Response) :
  next ctx (clock w) = (Returned (Some resp), t') ->
  graphql.Errors resp <> [] ->
  metrics.InterceptResponse m ctx next w
  = (Returned (Some resp),
     {| clock := t';
        log := (log w ++
                [CallNext ctx;
                 RecordWithTags (f opName)
                   (logs.operationMeasurements rc t');
                 RecordWithTags (f opName)
                   [stats.M metrics.ServerErrorCount (stats.IntValue 1)]])%list |}).
Proof.
  intros Hnext Herrs. subst opName rc.
  unfold metrics.InterceptResponse, GetOperationContext.
  unfold bind, Now, emit, call, ret, metrics.callOpTagger. cbn.
  rewrite Hnext, Hf. cbn.
  rewrite (eqb_empty_false _ (ListError_nonempty _ Herrs)). cbn.
  now rewrite <- !app_assoc.
Qed.

End ResponseInterception.

(** An operation whose attribute function panics: the end of the span is
    already deferred, so the span is started and ended; the wrapped
    handler is not called. *)
Lemma tracer_response_attributes_panic (tr : gqlopencensus.Tracer)
      (ctx : Context) (next : Handler (option graphql.Response)) (w : world)
      (p : panicValue) :
  gqlopencensus.attributesOf
    (gqlopencensus.operationAttributes (gqlopencensus.cfg tr))
    (operationContext ctx)
  = Panicked p ->
  gqlopencensus.InterceptResponse tr ctx next w
  = (Panicked p,
     {| clock := clock w;
        log := (log w ++
                [StartSpan (List.length (log w))
                           (gqlopencensus.operationName (operationContext ctx))
                           trace.SpanKindServer;
                 EndSpan (List.length (log w))])%list |}).
Proof.
  intros Hattrs.
  unfold gqlopencensus.InterceptResponse, GetOperationContext.
  unfold bind, StartSpanIn, lift, emit, defer, call, ret. cbn.
  rewrite Hattrs. cbn.
  now rewrite <- !app_assoc.
Qed.

Lemma New_opTagger_set (d : metrics.Collector) (opts : list metrics.Option) :
  metrics.opTagger (metrics.New d opts)
  = Some (logs.operationTagSet (metrics.New d opts)).
Proof. reflexivity. Qed.

Lemma New_fieldTagger_set (d : metrics.Collector) (opts : list metrics.Option) :
  metrics.fieldsEnabled (metrics.cfg (metrics.New d opts)) = true ->
  metrics.fieldTagger (metrics.New d opts)
  = Some (fun fieldName pth =>
            logs.fieldTagSet (metrics.New d opts) (fieldName, pth)).
Proof.
  unfold metrics.New. simpl. intros ->. reflexivity.
Qed.

(** ** The claims on interception *)

(** C4.  A field interception passes through when only-method mode is on
    and the field is not method-backed: the tracer starts no span, the
    collector (which measures method-backed fields only, whatever its
    configuration) records nothing, and the outcome of the wrapped
    resolver, value and error, is returned as it is. *)
Theorem field_passthrough (V : Type) (ctx : Context)
        (next : Handler (metrics.Resolved V)) (w : world) :
  graphql.IsMethod (fieldContext ctx) = false ->
  (forall tr,
      gqlopencensus.onlyMethods (gqlopencensus.cfg tr) = true ->
      gqlopencensus.InterceptField tr ctx next w
      = (fst (next ctx (clock w)),
         {| clock := snd (next ctx (clock w));
            log := (log w ++ [CallNext ctx])%list |}))
  /\ (forall m,
         metrics.InterceptField m ctx next w
         = (fst (next ctx (clock w)),
            {| clock := snd (next ctx (clock w));
               log := (log w ++ [CallNext ctx])%list |})).
Proof.
  intros Hm. split.
  - intros tr Honly. now apply tracer_field_skipped.
  - intros m. now apply collector_field_not_method.
Qed.

(** C5.  When the response of an operation carries one or more errors, a
    collector made by [New] records the error count once, with the value
    1, tagged by host and by the resolved operation name, after the
    record of the three measurements of the operation. *)
Theorem error_count_recorded (d : metrics.Collector)
        (opts : list metrics.Option) (ctx : Context)
        (next : Handler (option graphql.Response)) (w : world)
        (resp : graphql.Response) (t' : time.Time) :
  let m := metrics.New d opts in
  let rc := operationContext ctx in
  let tags := logs.operationTagSet m (metrics.operationName rc) in
  next ctx (clock w) = (Returned (Some resp), t') ->
  graphql.Errors resp <> [] ->
  metrics.InterceptResponse m ctx next w
  = (Returned (Some resp),
     {| clock := t';
        log := (log w ++
                [CallNext ctx;
                 RecordWithTags tags (logs.operationMeasurements rc t');
                 RecordWithTags tags
                   [stats.M metrics.ServerErrorCount (stats.IntValue 1)]])%list |}).
Proof.
  intros m rc tags Hnext Herrs.
  apply (collector_response_errors ctx next w m _ (New_opTagger_set d opts)
                                   t' resp Hnext Herrs).
Qed.

(** C6.  When the wrapped handler returns a nil response, the tracer
    returns nil and its last event is the end of its span; a collector
    made by [New] returns nil after one record of the three measurements
    of the operation (the request count with value 1, the parsing and
    validation latency, the execution latency), and records no error
    count.  The wrapped handler of the tracer runs once the attribute
    function has returned the attributes of the operation. *)
Theorem nil_response (tr : gqlopencensus.Tracer) (d : metrics.Collector)
        (opts : list metrics.Option) (ctx : Context)
        (next : Handler (option graphql.Response)) (w : world)
        (t' : time.Time) (attrs : list trace.Attribute) :
  let m := metrics.New d opts in
  let rc := operationContext ctx in
  let s := List.length (log w) in
  let ctx' := logs.withSpan ctx w in
  (gqlopencensus.attributesOf
     (gqlopencensus.operationAttributes (gqlopencensus.cfg tr)) rc
   = Returned attrs ->
   next ctx' (clock w) = (Returned None, t') ->
   gqlopencensus.InterceptResponse tr ctx next w
   = (Returned None,
      {| clock := t';
         log := (log w ++
                 [StartSpan s (gqlopencensus.operationName rc)
                            trace.SpanKindServer;
                  AddAttributes s attrs;
                  CallNext ctx';
                  EndSpan s])%list |}))
  /\ (next ctx (clock w) = (Returned None, t') ->
      metrics.InterceptResponse m ctx next w
      = (Returned None,
         {| clock := t';
            log := (log w ++
                    [CallNext ctx;
                     RecordWithTags
                       (logs.operationTagSet m (metrics.operationName rc))
                       (logs.operationMeasurements rc t')])%list |})).
Proof.
  intros m rc s ctx'. split.
  - intros Hattrs Hnext. now apply tracer_response_nil.
  - intros Hnext.
    apply (collector_response_nil ctx next w m _ (New_opTagger_set d opts)
                                  t' Hnext).
Qed.

(** C7.  When the response of an operation is not nil and carries one or
    more errors, the tracer sets the status of its span to the code
    Unknown with the concatenated error message, then ends the span, and
    returns the response as it is.  The wrapped handler runs once the
    attribute function has returned the attributes of the operation. *)
Theorem error_status_before_end (tr : gqlopencensus.Tracer) (ctx : Context)
        (next : Handler (option graphql.Response)) (w : world)
        (resp : graphql.Response) (t' : time.Time)
        (attrs : list trace.Attribute) :
  let rc := operationContext ctx in
  let s := List.length (log w) in
  let ctx' := logs.withSpan ctx w in
  gqlopencensus.attributesOf
    (gqlopencensus.operationAttributes (gqlopencensus.cfg tr)) rc
  = Returned attrs ->
  next ctx' (clock w) = (Returned (Some resp), t') ->
  graphql.Errors resp <> [] ->
  gqlopencensus.InterceptResponse tr ctx next w
  = (Returned (Some resp),
     {| clock := t';
        log := (log w ++
                [StartSpan s (gqlopencensus.operationName rc)
                           trace.SpanKindServer;
                 AddAttributes s attrs;
                 CallNext ctx';
                 SetStatus s
                   {| trace.Code := trace.StatusCodeUnknown;
                      trace.Message :=
                        graphql.ListError (graphql.Errors resp) |};
                 EndSpan s])%list |}).
Proof.
  intros rc s ctx' Hattrs Hnext Herrs.
  now apply tracer_response_errors.
Qed.

(** C9.  For a collector made by [New]: when field metrics are disabled
    the field tagging closure is the one of the default collector, nil
    when that one is; the field interception then passes through without
    reaching the closure; when field metrics are enabled the closure is
    set; so in every case the outcome of the interception is the outcome
    of the wrapped resolver, and no call through a nil closure occurs. *)
Theorem field_tagger_never_nil_called (d : metrics.Collector)
        (opts : list metrics.Option) :
  let m := metrics.New d opts in
  (metrics.fieldTagger d = None ->
   metrics.fieldsEnabled (metrics.cfg m) = false ->
   metrics.fieldTagger m = None)
  /\ (metrics.fieldsEnabled (metrics.cfg m) = false ->
      forall V ctx (next : Handler (metrics.Resolved V)) w,
        metrics.InterceptField m ctx next w = call next ctx w)
  /\ (metrics.fieldsEnabled (metrics.cfg m) = true ->
      forall ft w, exists tags,
        metrics.callFieldTagger m ft w = (Returned tags, w))
  /\ (forall V ctx (next : Handler (metrics.Resolved V)) w,
         fst (metrics.InterceptField m ctx next w)
         = fst (next ctx (clock w))).
Proof.
  intros m. repeat split.
  - apply New_fieldTagger_unset.
  - intros Hoff V ctx next w.
    rewrite (collector_field_disabled V ctx next w m Hoff).
    symmetry. apply call_passedThrough.
  - intros Hon [fieldName pth] w. eexists. now apply New_fieldTagger.
  - intros V ctx next w.
    destruct (metrics.fieldsEnabled (metrics.cfg m)) eqn:Hon.
    + destruct (graphql.IsMethod (fieldContext ctx)) eqn:Hm.
      * now rewrite (collector_field_measured V ctx next w m _ Hon Hm
                       (New_fieldTagger_set d opts Hon)).
      * now rewrite (collector_field_not_method V ctx next w m Hm).
    + now rewrite (collector_field_disabled V ctx next w m Hon).
Qed.

(** C2, as the code has it.  An interception that is not passed through
    performs its span life cycle, or its recording, exactly once on every
    exit path of the wrapped call (a returned value or response, a
    returned error, a nil response, a panic):
    - an operation interception of the tracer starts one span and ends
      it, once;
    - a field interception of the tracer does the same, unless only-method
      mode is on and the field is not method-backed, once its attribute
      function has returned the attributes of the field;
    - a field interception that is passed through (by the tracer under
      only-method mode for a field that is not method-backed, by a
      collector without field metrics or for a field that is not
      method-backed) only calls the wrapped resolver: it starts no span
      and records nothing;
    - a field interception of a collector made by [New], with field
      metrics enabled and a method-backed field, records the field count
      and the field latency once;
    - an operation interception of a collector made by [New] whose wrapped
      call returns records the three measurements of the operation once,
      followed by the one record of the error count when the response
      carries errors, and by nothing otherwise. *)
Theorem lifecycle_exactly_once :
  (forall tr ctx next w,
      logs.spanOnce (log w)
        (log (snd (gqlopencensus.InterceptResponse tr ctx next w))))
  /\ (forall V tr ctx (next : Handler (metrics.Resolved V)) w attrs,
         observe.skipped tr ctx = false ->
         gqlopencensus.attributesOf
           (gqlopencensus.fieldAttributes (gqlopencensus.cfg tr))
           (fieldContext ctx)
         = Returned attrs ->
         logs.spanOnce (log w)
           (log (snd (gqlopencensus.InterceptField tr ctx next w))))
  /\ (forall V tr ctx (next : Handler (metrics.Resolved V)) w,
         observe.skipped tr ctx = true ->
         observe.since w (snd (gqlopencensus.InterceptField tr ctx next w))
         = [CallNext ctx])
  /\ (forall V m ctx (next : Handler (metrics.Resolved V)) w,
         metrics.fieldsEnabled (metrics.cfg m)
           && graphql.IsMethod (fieldContext ctx) = false ->
         observe.since w (snd (metrics.InterceptField m ctx next w))
         = [CallNext ctx])
  /\ (forall V d opts ctx (next : Handler (metrics.Resolved V)) w,
         let m := metrics.New d opts in
         metrics.fieldsEnabled (metrics.cfg m) = true ->
         graphql.IsMethod (fieldContext ctx) = true ->
         logs.recordedOnce
           (logs.fieldTagSet m (metrics.fieldTags (fieldContext ctx)))
           (logs.fieldMeasurements (clock w) (snd (next ctx (clock w))))
           (log w)
           (log (snd (metrics.InterceptField m ctx next w))))
  /\ (forall d opts ctx next w resp t',
         let m := metrics.New d opts in
         let rc := operationContext ctx in
         let tags := logs.operationTagSet m (metrics.operationName rc) in
         next ctx (clock w) = (Returned resp, t') ->
         log (snd (metrics.InterceptResponse m ctx next w))
         = (log w ++
            [CallNext ctx;
             RecordWithTags tags (logs.operationMeasurements rc t')] ++
            match resp with
            | Some r =>
                match graphql.Errors r with
                | [] => []
                | _ :: _ =>
                    [RecordWithTags tags
                       [stats.M metrics.ServerErrorCount (stats.IntValue 1)]]
                end
            | None => []
            end)%list).
Proof.
  split; [|split; [|split; [|split; [|split]]]].
  - intros tr ctx next w. unfold logs.spanOnce.
    destruct (gqlopencensus.attributesOf
                (gqlopencensus.operationAttributes (gqlopencensus.cfg tr))
                (operationContext ctx)) as [attrs|pa] eqn:Ha.
    + destruct (next (logs.withSpan ctx w) (clock w))
        as [[[resp|]|p] t'] eqn:E.
      * destruct (graphql.Errors resp) as [|e rest] eqn:Herrs.
        -- rewrite (tracer_response_clean ctx next w tr attrs Ha t' resp
                      E Herrs).
           do 3 eexists. eexists [_; _]. cbn. repeat split.
        -- assert (Hne : graphql.Errors resp <> [])
             by (rewrite Herrs; discriminate).
           rewrite (tracer_response_errors ctx next w tr attrs Ha t' resp
                      E Hne).
           do 3 eexists. eexists [_; _; _]. cbn. repeat split.
      * rewrite (tracer_response_nil ctx next w tr attrs Ha t' E).
        do 3 eexists. eexists [_; _]. cbn. repeat split.
      * rewrite (tracer_response_panic ctx next w tr attrs Ha t' p E).
        do 3 eexists. eexists [_; _]. cbn. repeat split.
    + rewrite (tracer_response_attributes_panic tr ctx next w pa Ha).
      do 3 eexists. exists []. cbn. repeat split.
  - intros V tr ctx next w attrs Hcond Ha. unfold logs.spanOnce.
    rewrite (tracer_field_traced V ctx next w tr attrs Hcond Ha).
    do 3 eexists. eexists [_; _]. cbn. repeat split.
  - intros V tr ctx next w Hskip. unfold observe.skipped in Hskip.
    apply andb_true_iff in Hskip as [Honly Hm].
    apply negb_true_iff in Hm.
    rewrite (tracer_field_skipped V ctx next w tr Honly Hm). cbn.
    apply since_app.
  - intros V m ctx next w Hoff.
    apply andb_false_iff in Hoff as [Hoff|Hm].
    + rewrite (collector_field_disabled V ctx next w m Hoff). cbn.
      apply since_app.
    + rewrite (collector_field_not_method V ctx next w m Hm). cbn.
      apply since_app.
  - intros V d opts ctx next w m Hon Hm. unfold logs.recordedOnce.
    rewrite (collector_field_measured V ctx next w m _ Hon Hm
               (New_fieldTagger_set d opts Hon)).
    exists [CallNext ctx], []. cbn. repeat split.
  - intros d opts ctx next w resp t' m rc tags Hnext.
    destruct resp as [resp|].
    + destruct (graphql.Errors resp) as [|e rest] eqn:Herrs.
      * now rewrite (collector_response_clean ctx next w m _
                       (New_opTagger_set d opts) t' resp Hnext Herrs).
      * assert (Hne : graphql.Errors resp <> [])
          by (rewrite Herrs; discriminate).
        now rewrite (collector_response_errors ctx next w m _
                       (New_opTagger_set d opts) t' resp Hnext Hne).
    + now rewrite (collector_response_nil ctx next w m _
                     (New_opTagger_set d opts) t' Hnext).
Qed.

(** * The properties at sample inputs *)

(** The naming rule on five operation contexts: a named query, an
    anonymous mutation, a parsed operation without name and type, the
    context of the test of the collector, and a context with nothing. *)
Lemma operationName_precedence_witness :
  metrics.operationName sample.namedOpCtx = "Q"
  /\ metrics.operationName sample.anonymousOpCtx = "mutation"
  /\ metrics.operationName sample.untypedOpCtx = "raw"
  /\ metrics.operationName sample.opCtx = "test"
  /\ metrics.operationName sample.unnamedOpCtx = "".
Proof.
  split; [|split; [|split; [|split]]].
  - apply (proj1 (operationName_precedence sample.namedOpCtx) _ eq_refl).
    discriminate.
  - apply (proj1 (proj2 (operationName_precedence sample.anonymousOpCtx))
                 _ eq_refl eq_refl).
    discriminate.
  - exact (proj1 (proj2 (proj2 (operationName_precedence sample.untypedOpCtx)))
                 _ eq_refl eq_refl eq_refl).
  - exact (proj1 (proj2 (proj2 (proj2 (operationName_precedence sample.opCtx))))
                 eq_refl).
  - exact (proj2 (proj2 (proj2 (proj2
             (operationName_precedence sample.unnamedOpCtx))))
                 eq_refl eq_refl).
Defined.

(** The tags of an introspection field and of an ordinary field. *)
Lemma fieldTags_introspection_witness :
  metrics.fieldTags sample.schemaField = ("[introspection]", "__schema")
  /\ metrics.fieldTags sample.userField = ("user", "query/user").
Proof.
  split.
  - apply (proj1 (fieldTags_introspection sample.schemaField) ".types[3]").
    reflexivity.
  - apply (proj2 (fieldTags_introspection sample.userField)).
    intros suffix H. discriminate H.
Defined.

(** The closures of a collector made by [New] without option. *)
Lemma New_taggers_witness :
  metrics.callFieldTagger sample.collector ("aField", "q/path") sample.w0
  = (Returned [tag.Upsert metrics.TagHost "-";
               tag.Upsert metrics.TagField "aField";
               tag.Upsert metrics.TagPath "q/path"], sample.w0).
Proof.
  apply (proj2 (proj2 (New_taggers (sample.bare true) [])) eq_refl).
Defined.

(** A property field goes through the tracer and the collector
    untouched. *)
Lemma field_passthrough_witness :
  gqlopencensus.InterceptField sample.tracer sample.propertyCtx sample.resolver sample.w0
  = (Returned (42%Z, None), {| clock := 1005%Z; log := [CallNext sample.propertyCtx] |})
  /\ metrics.InterceptField sample.collector sample.propertyCtx sample.resolver sample.w0
     = (Returned (42%Z, None), {| clock := 1005%Z; log := [CallNext sample.propertyCtx] |}).
Proof.
  destruct (field_passthrough Z sample.propertyCtx sample.resolver sample.w0 eq_refl)
    as [Htracer Hcollector].
  split.
  - exact (Htracer sample.tracer eq_refl).
  - exact (Hcollector sample.collector).
Defined.

(** A failing operation through the collector. *)
Lemma error_count_recorded_witness :
  metrics.InterceptResponse sample.collector sample.userCtx sample.failing sample.w0
  = (Returned (Some sample.failed),
     {| clock := 1007%Z;
        log := [CallNext sample.userCtx;
                RecordWithTags sample.hostTags
                  [stats.M metrics.ServerRequestCount (stats.IntValue 1);
                   stats.M metrics.ServerParsing (stats.MillisOf 150%Z);
                   stats.M metrics.ServerLatency (stats.MillisOf 757%Z)];
                RecordWithTags sample.hostTags
                  [stats.M metrics.ServerErrorCount (stats.IntValue 1)]] |}).
Proof.
  apply (error_count_recorded (sample.bare true) [] sample.userCtx sample.failing
                              sample.w0 sample.failed 1007%Z eq_refl).
  discriminate.
Defined.

(** A nil response through the tracer and through the collector. *)
Lemma nil_response_witness :
  gqlopencensus.InterceptResponse sample.tracer sample.userCtx sample.silent sample.w0
  = (Returned None,
     {| clock := 1007%Z;
        log := [StartSpan 0 "test" trace.SpanKindServer;
                AddAttributes 0 [];
                CallNext sample.tracedUserCtx;
                EndSpan 0] |})
  /\ metrics.InterceptResponse sample.collector sample.userCtx sample.silent sample.w0
     = (Returned None,
        {| clock := 1007%Z;
           log := [CallNext sample.userCtx;
                   RecordWithTags
                     [tag.Upsert metrics.TagHost "-";
                      tag.Upsert metrics.TagOperation "test"]
                     [stats.M metrics.ServerRequestCount (stats.IntValue 1);
                      stats.M metrics.ServerParsing (stats.MillisOf 150%Z);
                      stats.M metrics.ServerLatency (stats.MillisOf 757%Z)]] |}).
Proof.
  destruct (nil_response sample.tracer (sample.bare true) [] sample.userCtx
                         sample.silent sample.w0 1007%Z [])
    as [Htracer Hcollector].
  split.
  - exact (Htracer eq_refl eq_refl).
  - exact (Hcollector eq_refl).
Defined.

(** A failing operation through the tracer. *)
Lemma error_status_before_end_witness :
  gqlopencensus.InterceptResponse sample.tracer sample.userCtx sample.failing sample.w0
  = (Returned (Some sample.failed),
     {| clock := 1007%Z;
        log := [StartSpan 0 "test" trace.SpanKindServer;
                AddAttributes 0 [];
                CallNext sample.tracedUserCtx;
                SetStatus 0 {| trace.Code := 2%Z;
                               trace.Message :=
                                 "input: boom" ++ graphql.newline |};
                EndSpan 0] |}).
Proof.
  apply (error_status_before_end sample.tracer sample.userCtx sample.failing
                                 sample.w0 sample.failed 1007%Z []
                                 eq_refl eq_refl).
  discriminate.
Defined.

(** A collector made without field metrics has no field tagging closure
    and passes every field through; one made with field metrics has the
    closure. *)
Lemma field_tagger_never_nil_called_witness :
  metrics.fieldTagger sample.collectorWithoutFields = None
  /\ metrics.InterceptField sample.collectorWithoutFields sample.userCtx
       sample.resolver sample.w0
     = call sample.resolver sample.userCtx sample.w0
  /\ exists tags,
      metrics.callFieldTagger sample.collector ("user", "query/user") sample.w0
      = (Returned tags, sample.w0).
Proof.
  destruct (field_tagger_never_nil_called (sample.bare false) [])
    as (Hunset & Hpass & _ & _).
  destruct (field_tagger_never_nil_called (sample.bare true) [])
    as (_ & _ & Hset & _).
  split; [|split].
  - exact (Hunset eq_refl eq_refl).
  - exact (Hpass eq_refl Z sample.userCtx sample.resolver sample.w0).
  - exact (Hset eq_refl ("user", "query/user") sample.w0).
Defined.

(** A method-backed field through the tracer and a collector, a property
    field passed through by both, and a failing operation through the
    collector. *)
Lemma lifecycle_exactly_once_witness :
  logs.spanOnce []
    (log (snd (gqlopencensus.InterceptField sample.tracer sample.userCtx
                 sample.resolver sample.w0)))
  /\ observe.since sample.w0
       (snd (gqlopencensus.InterceptField sample.tracer sample.propertyCtx
               sample.resolver sample.w0))
     = [CallNext sample.propertyCtx]
  /\ observe.since sample.w0
       (snd (metrics.InterceptField sample.collector sample.propertyCtx
               sample.resolver sample.w0))
     = [CallNext sample.propertyCtx]
  /\ logs.recordedOnce
       [tag.Upsert metrics.TagHost "-";
        tag.Upsert metrics.TagField "user";
        tag.Upsert metrics.TagPath "query/user"]
       [stats.M metrics.ServerFieldCount (stats.IntValue 1);
        stats.M metrics.ServerFieldLatency (stats.MillisOf 5%Z)]
       []
       (log (snd (metrics.InterceptField sample.collector sample.userCtx
                    sample.resolver sample.w0)))
  /\ log (snd (metrics.InterceptResponse sample.collector sample.userCtx
                 sample.failing sample.w0))
     = [CallNext sample.userCtx;
        RecordWithTags sample.hostTags
          (logs.operationMeasurements sample.opCtx 1007%Z);
        RecordWithTags sample.hostTags
          [stats.M metrics.ServerErrorCount (stats.IntValue 1)]].
Proof.
  destruct lifecycle_exactly_once
    as (_ & Hfield & Hskipped & Hunmeasured & Hmeasured & Hoperation).
  split; [|split; [|split; [|split]]].
  - exact (Hfield Z sample.tracer sample.userCtx sample.resolver sample.w0 []
                  eq_refl eq_refl).
  - exact (Hskipped Z sample.tracer sample.propertyCtx sample.resolver
                    sample.w0 eq_refl).
  - exact (Hunmeasured Z sample.collector sample.propertyCtx sample.resolver
                       sample.w0 eq_refl).
  - exact (Hmeasured Z (sample.bare true) [] sample.userCtx sample.resolver
                     sample.w0 eq_refl eq_refl).
  - exact (Hoperation (sample.bare true) [] sample.userCtx sample.failing
                      sample.w0 (Some sample.failed) 1007%Z eq_refl).
Defined.

(** ** Where the claims as written fail *)

(** C2 as written has every interception call start and end a span, or
    record, exactly once.  A property field under only-method mode starts
    no span in the tracer, and a field records nothing in a collector
    made without field metrics. *)
Lemma passthrough_does_nothing :
  logs.count logs.isStartSpan
    (log (snd (gqlopencensus.InterceptField sample.tracer sample.propertyCtx
                 sample.resolver sample.w0))) = 0%nat
  /\ logs.count logs.isEndSpan
       (log (snd (gqlopencensus.InterceptField sample.tracer sample.propertyCtx
                    sample.resolver sample.w0))) = 0%nat
  /\ logs.count logs.isRecord
       (log (snd (metrics.InterceptField sample.collectorWithoutFields
                    sample.userCtx
                    sample.resolver sample.w0))) = 0%nat.
Proof.
  repeat split.
Qed.

(** * Further properties of the interceptors *)

Section CollectorEdges.

Variable m : metrics.Collector.
Variable ctx : Context.
Variable w : world.

(** A panic of the wrapped handler leaves [Collector.InterceptResponse] at
    once. *)
Lemma collector_response_panic (next : Handler (option graphql.Response))
      (p : panicValue) (t' : time.Time) :
  next ctx (clock w) = (Panicked p, t') ->
  metrics.InterceptResponse m ctx next w
  = (Panicked p, {| clock := t'; log := (log w ++ [CallNext ctx])%list |}).
Proof.
  intros Hnext. unfold metrics.InterceptResponse, bind, call.
  now rewrite Hnext.
Qed.

(** Without operation tagging closure the call through it panics, once
    the wrapped handler has returned. *)
Lemma collector_response_untagged (next : Handler (option graphql.Response))
      (r : option graphql.Response) (t' : time.Time) :
  metrics.opTagger m = None ->
  next ctx (clock w) = (Returned r, t') ->
  metrics.InterceptResponse m ctx next w
  = (Panicked NilFunctionCall,
     {| clock := t'; log := (log w ++ [CallNext ctx])%list |}).
Proof.
  intros Hnil Hnext.
  unfold metrics.InterceptResponse, bind, call, Now, metrics.callOpTagger, panic.
  now rewrite Hnext, Hnil.
Qed.

(** Without field tagging closure the deferred recording panics, whatever
    the wrapped resolver did. *)
Lemma collector_field_untagged (V : Type)
      (next : Handler (metrics.Resolved V)) :
  metrics.fieldsEnabled (metrics.cfg m) = true ->
  graphql.IsMethod (fieldContext ctx) = true ->
  metrics.fieldTagger m = None ->
  metrics.InterceptField m ctx next w
  = (Panicked NilFunctionCall,
     {| clock := snd (next ctx (clock w));
        log := (log w ++ [CallNext ctx])%list |}).
Proof.
  intros Hon Hm Hnil.
  unfold metrics.InterceptField, GetFieldContext. rewrite Hon, Hm. cbn.
  unfold bind, Now, defer, call, metrics.callFieldTagger, panic. cbn.
  rewrite Hnil.
  now destruct (next ctx (clock w)) as [r t'].
Qed.

End CollectorEdges.

(** The events of each interceptor, for every tracer, collector, context
    and wrapped handler. *)

Lemma tracer_field_events (V : Type) (tr : gqlopencensus.Tracer)
      (ctx : Context) (next : Handler (metrics.Resolved V)) (w : world) :
  let s := List.length (log w) in
  let run := gqlopencensus.InterceptField tr ctx next w in
  if observe.skipped tr ctx
  then fst run = fst (next ctx (clock w))
       /\ observe.since w (snd run) = [CallNext ctx]
  else match gqlopencensus.attributesOf
               (gqlopencensus.fieldAttributes (gqlopencensus.cfg tr))
               (fieldContext ctx) with
       | Returned attrs =>
           fst run = fst (next (logs.withSpan ctx w) (clock w))
           /\ observe.since w (snd run)
              = [StartSpan s (graphql.PathString (fieldContext ctx))
                           trace.SpanKindServer;
                 AddAttributes s attrs;
                 CallNext (logs.withSpan ctx w);
                 EndSpan s]
       | Panicked p =>
           fst run = Panicked p
           /\ observe.since w (snd run)
              = [StartSpan s (graphql.PathString (fieldContext ctx))
                           trace.SpanKindServer]
       end.
Proof.
  intros s run. subst run.
  destruct (observe.skipped tr ctx) eqn:Hskip; unfold observe.skipped in Hskip.
  - apply andb_true_iff in Hskip as [Honly Hm].
    apply negb_true_iff in Hm.
    rewrite (tracer_field_skipped V ctx next w tr Honly Hm). cbn.
    now rewrite since_app.
  - destruct (gqlopencensus.attributesOf _ _) as [attrs|p] eqn:Ha.
    + rewrite (tracer_field_traced V ctx next w tr attrs Hskip Ha). cbn.
      now rewrite since_app.
    + rewrite (tracer_field_attributes_panic V ctx next w tr p Hskip Ha). cbn.
      now rewrite since_app.
Qed.

Lemma tracer_response_events (tr : gqlopencensus.Tracer) (ctx : Context)
      (next : Handler (option graphql.Response)) (w : world) :
  let s := List.length (log w) in
  let rc := operationContext ctx in
  let run := gqlopencensus.InterceptResponse tr ctx next w in
  let out := fst (next (logs.withSpan ctx w) (clock w)) in
  match gqlopencensus.attributesOf
          (gqlopencensus.operationAttributes (gqlopencensus.cfg tr)) rc with
  | Returned attrs =>
      fst run = out
      /\ observe.since w (snd run)
         = ([StartSpan s (gqlopencensus.operationName rc) trace.SpanKindServer;
             AddAttributes s attrs;
             CallNext (logs.withSpan ctx w)]
            ++ match out with
               | Returned (Some resp) =>
                   match graphql.Errors resp with
                   | [] => []
                   | _ :: _ =>
                       [SetStatus s
                          {| trace.Code := trace.StatusCodeUnknown;
                             trace.Message :=
                               graphql.ListError (graphql.Errors resp) |}]
                   end
               | _ => []
               end
            ++ [EndSpan s])%list
  | Panicked p =>
      fst run = Panicked p
      /\ observe.since w (snd run)
         = [StartSpan s (gqlopencensus.operationName rc) trace.SpanKindServer;
            EndSpan s]
  end.
Proof.
  intros s rc run out. subst run out rc.
  destruct (gqlopencensus.attributesOf _ _) as [attrs|pa] eqn:Ha.
  - destruct (next (logs.withSpan ctx w) (clock w)) as [[[resp|]|p] t'] eqn:E.
    + destruct (graphql.Errors resp) as [|e rest] eqn:Herrs.
      * rewrite (tracer_response_clean ctx next w tr attrs Ha t' resp E Herrs).
        cbn. rewrite since_app. now rewrite Herrs.
      * assert (Hne : graphql.Errors resp <> [])
          by (rewrite Herrs; discriminate).
        rewrite (tracer_response_errors ctx next w tr attrs Ha t' resp E Hne).
        cbn. rewrite since_app. now rewrite Herrs.
    + rewrite (tracer_response_nil ctx next w tr attrs Ha t' E). cbn.
      now rewrite since_app.
    + rewrite (tracer_response_panic ctx next w tr attrs Ha t' p E). cbn.
      now rewrite since_app.
  - rewrite (tracer_response_attributes_panic tr ctx next w pa Ha). cbn.
    now rewrite since_app.
Qed.

Lemma collector_field_events (V : Type) (m : metrics.Collector)
      (ctx : Context) (next : Handler (metrics.Resolved V)) (w : world) :
  let run := metrics.InterceptField m ctx next w in
  let ft := metrics.fieldTags (fieldContext ctx) in
  if metrics.fieldsEnabled (metrics.cfg m)
     && graphql.IsMethod (fieldContext ctx)
  then match metrics.fieldTagger m with
       | Some f =>
           fst run = fst (next ctx (clock w))
           /\ observe.since w (snd run)
              = [CallNext ctx;
                 RecordWithTags (f (fst ft) (snd ft))
                   (logs.fieldMeasurements (clock w)
                      (snd (next ctx (clock w))))]
       | None =>
           fst run = Panicked NilFunctionCall
           /\ observe.since w (snd run) = [CallNext ctx]
       end
  else fst run = fst (next ctx (clock w))
       /\ observe.since w (snd run) = [CallNext ctx].
Proof.
  intros run ft. subst run ft.
  destruct (metrics.fieldsEnabled (metrics.cfg m)) eqn:Hon; cbn.
  - destruct (graphql.IsMethod (fieldContext ctx)) eqn:Hm.
    + destruct (metrics.fieldTagger m) as [f|] eqn:Hf.
      * rewrite (collector_field_measured V ctx next w m f Hon Hm Hf). cbn.
        now rewrite since_app.
      * rewrite (collector_field_untagged m ctx w V next Hon Hm Hf). cbn.
        now rewrite since_app.
    + rewrite (collector_field_not_method V ctx next w m Hm). cbn.
      now rewrite since_app.
  - rewrite (collector_field_disabled V ctx next w m Hon). cbn.
    now rewrite since_app.
Qed.

Lemma collector_response_events (m : metrics.Collector) (ctx : Context)
      (next : Handler (option graphql.Response)) (w : world) :
  let run := metrics.InterceptResponse m ctx next w in
  let rc := operationContext ctx in
  let opName := metrics.operationName rc in
  match fst (next ctx (clock w)) with
  | Panicked p =>
      fst run = Panicked p /\ observe.since w (snd run) = [CallNext ctx]
  | Returned r =>
      match metrics.opTagger m with
      | None =>
          fst run = Panicked NilFunctionCall
          /\ observe.since w (snd run) = [CallNext ctx]
      | Some f =>
          fst run = Returned r
          /\ observe.since w (snd run)
             = ([CallNext ctx;
                 RecordWithTags (f opName)
                   (logs.operationMeasurements rc (snd (next ctx (clock w))))]
                ++ match r with
                   | Some resp =>
                       match graphql.Errors resp with
                       | [] => []
                       | _ :: _ =>
                           [RecordWithTags (f opName)
                              [stats.M metrics.ServerErrorCount
                                       (stats.IntValue 1)]]
                       end
                   | None => []
                   end)%list
      end
  end.
Proof.
  intros run rc opName. subst run rc opName.
  destruct (next ctx (clock w)) as [[r|p] t'] eqn:E; cbn.
  - destruct (metrics.opTagger m) as [f|] eqn:Hf.
    + destruct r as [resp|].
      * destruct (graphql.Errors resp) as [|e rest] eqn:Herrs.
        -- rewrite (collector_response_clean ctx next w m f Hf t' resp E Herrs).
           cbn. now rewrite since_app.
        -- assert (Hne : graphql.Errors resp <> [])
             by (rewrite Herrs; discriminate).
           rewrite (collector_response_errors ctx next w m f Hf t' resp E Hne).
           cbn. now rewrite since_app.
      * rewrite (collector_response_nil ctx next w m f Hf t' E). cbn.
        now rewrite since_app.
    + rewrite (collector_response_untagged m ctx w next r t' Hf E). cbn.
      now rewrite since_app.
  - rewrite (collector_response_panic m ctx w next p t' E). cbn.
    now rewrite since_app.
Qed.

(** ** Naming and tagging *)

(** X1.  The resolved operation name is empty exactly when nothing names
    the operation: the raw operation name is empty and either no
    operation was parsed or the parsed one has neither a name nor an
    operation type. *)
Theorem operationName_empty_iff (ctx : graphql.OperationContext) :
  metrics.operationName ctx = ""
  <-> graphql.OperationName ctx = ""
      /\ (graphql.Operation ctx = None
          \/ exists op, graphql.Operation ctx = Some op
                        /\ ast.Name op = "" /\ ast.Operation op = "").
Proof.
  destruct (graphql.Operation ctx) as [op|] eqn:Hop.
  - destruct (string_dec (ast.Name op) "") as [Hname|Hname].
    + destruct (string_dec (ast.Operation op) "") as [Hty|Hty].
      * rewrite (operationName_untyped ctx op Hop Hname Hty). split.
        -- intros Hraw. split; [exact Hraw|]. right. now exists op.
        -- now intros [Hraw _].
      * rewrite (operationName_type ctx op Hop Hname Hty). split.
        -- intros H. now destruct Hty.
        -- intros [_ [H|[op' (H & _ & Hty')]]]; [discriminate|].
           injection H as <-. now destruct Hty.
    + rewrite (operationName_declared ctx op Hop Hname). split.
      * intros H. now destruct Hname.
      * intros [_ [H|[op' (H & Hname' & _)]]]; [discriminate|].
        injection H as <-. now destruct Hname.
  - rewrite (operationName_raw ctx Hop). split.
    + intros Hraw. split; [exact Hraw | now left].
    + now intros [Hraw _].
Qed.

(** X2.  The path tag of a field is the root "__schema" itself or a path
    that does not begin with "__schema"; so tagging a field context made
    of the tags of another one gives the same tags again. *)
Theorem fieldTags_collapsed (fc : graphql.FieldContext) :
  (snd (metrics.fieldTags fc) = "__schema"
   \/ strings.HasPrefix (snd (metrics.fieldTags fc)) "__schema" = false)
  /\ (forall isMethod,
         metrics.fieldTags
           {| graphql.FieldName := fst (metrics.fieldTags fc);
              graphql.IsMethod := isMethod;
              graphql.PathString := snd (metrics.fieldTags fc) |}
         = metrics.fieldTags fc).
Proof.
  unfold metrics.fieldTags.
  destruct (strings.HasPrefix (graphql.PathString fc) "__schema") eqn:E; cbn.
  - split; [now left | reflexivity].
  - split; [now right | intros _; now rewrite E].
Qed.

(** ** What every interception does *)

(** X3.  An interception calls the wrapped handler at most once, and
    exactly once in all cases but one: a tracer whose attribute function
    is nil or panics does not call it.  A collector made by [New] hands
    it the context it was given; the tracer hands it the context that
    carries the span it started, or the context it was given when it
    passes a field through. *)
Theorem wrapped_handler_calls :
  (forall V tr ctx (next : Handler (metrics.Resolved V)) w,
      observe.callsIn
        (observe.since w (snd (gqlopencensus.InterceptField tr ctx next w)))
      = if observe.skipped tr ctx then [ctx]
        else match gqlopencensus.attributesOf
                     (gqlopencensus.fieldAttributes (gqlopencensus.cfg tr))
                     (fieldContext ctx) with
             | Returned _ => [logs.withSpan ctx w]
             | Panicked _ => []
             end)
  /\ (forall tr ctx next w,
         observe.callsIn
           (observe.since w
              (snd (gqlopencensus.InterceptResponse tr ctx next w)))
         = match gqlopencensus.attributesOf
                   (gqlopencensus.operationAttributes (gqlopencensus.cfg tr))
                   (operationContext ctx) with
           | Returned _ => [logs.withSpan ctx w]
           | Panicked _ => []
           end)
  /\ (forall V d opts ctx (next : Handler (metrics.Resolved V)) w,
         observe.callsIn
           (observe.since w
              (snd (metrics.InterceptField (metrics.New d opts) ctx next w)))
         = [ctx])
  /\ (forall d opts ctx next w,
         observe.callsIn
           (observe.since w
              (snd (metrics.InterceptResponse (metrics.New d opts)
                      ctx next w)))
         = [ctx]).
Proof.
  split; [|split; [|split]].
  - intros V tr ctx next w.
    pose proof (tracer_field_events V tr ctx next w) as H. cbn zeta in H.
    destruct (observe.skipped tr ctx).
    + destruct H as [_ ->]; reflexivity.
    + destruct (gqlopencensus.attributesOf _ _);
        destruct H as [_ ->]; reflexivity.
  - intros tr ctx next w.
    pose proof (tracer_response_events tr ctx next w) as H. cbn zeta in H.
    destruct (gqlopencensus.attributesOf _ _);
      destruct H as [_ ->]; [|reflexivity].
    destruct (fst (next (logs.withSpan ctx w) (clock w))) as [[resp|]|p];
      try reflexivity.
    now destruct (graphql.Errors resp).
  - intros V d opts ctx next w.
    pose proof (collector_field_events V (metrics.New d opts) ctx next w)
      as H. cbn zeta in H.
    destruct (metrics.fieldsEnabled (metrics.cfg (metrics.New d opts)))
      eqn:Hon; cbn [andb] in H.
    + destruct (graphql.IsMethod (fieldContext ctx)).
      * rewrite (New_fieldTagger_set d opts Hon) in H.
        destruct H as [_ ->]; reflexivity.
      * destruct H as [_ ->]; reflexivity.
    + destruct H as [_ ->]; reflexivity.
  - intros d opts ctx next w.
    pose proof (collector_response_events (metrics.New d opts) ctx next w)
      as H. cbn zeta in H.
    rewrite New_opTagger_set in H.
    destruct (fst (next ctx (clock w))) as [r|p].
    + destruct H as [_ ->]. destruct r as [resp|]; [|reflexivity].
      now destruct (graphql.Errors resp).
    + destruct H as [_ ->]; reflexivity.
Qed.

(** X4.  An interception that calls the wrapped handler returns what the
    handler returned, value, error, response or panic, whatever it
    reports on the side: so do a collector made by [New] in an operation
    interception, and the tracer in both hooks.  The only other outcome
    of the tracer is the panic of its attribute function, nil or
    panicking, before the handler is called. *)
Theorem interception_is_transparent :
  (forall V tr ctx (next : Handler (metrics.Resolved V)) w,
      fst (gqlopencensus.InterceptField tr ctx next w)
      = if observe.skipped tr ctx then fst (next ctx (clock w))
        else match gqlopencensus.attributesOf
                     (gqlopencensus.fieldAttributes (gqlopencensus.cfg tr))
                     (fieldContext ctx) with
             | Returned _ => fst (next (logs.withSpan ctx w) (clock w))
             | Panicked p => Panicked p
             end)
  /\ (forall tr ctx next w,
         fst (gqlopencensus.InterceptResponse tr ctx next w)
         = match gqlopencensus.attributesOf
                   (gqlopencensus.operationAttributes (gqlopencensus.cfg tr))
                   (operationContext ctx) with
           | Returned _ => fst (next (logs.withSpan ctx w) (clock w))
           | Panicked p => Panicked p
           end)
  /\ (forall d opts ctx next w,
         fst (metrics.InterceptResponse (metrics.New d opts) ctx next w)
         = fst (next ctx (clock w))).
Proof.
  split; [|split].
  - intros V tr ctx next w.
    pose proof (tracer_field_events V tr ctx next w) as H. cbn zeta in H.
    destruct (observe.skipped tr ctx).
    + now destruct H as [-> _].
    + destruct (gqlopencensus.attributesOf _ _); now destruct H as [-> _].
  - intros tr ctx next w.
    pose proof (tracer_response_events tr ctx next w) as H. cbn zeta in H.
    destruct (gqlopencensus.attributesOf _ _); now destruct H as [-> _].
  - intros d opts ctx next w.
    pose proof (collector_response_events (metrics.New d opts) ctx next w)
      as H. cbn zeta in H.
    rewrite New_opTagger_set in H.
    destruct (fst (next ctx (clock w))) as [r|p]; now destruct H as [-> _].
Qed.

(** ** Edges of the collector *)

(** X5.  When the wrapped handler of an operation panics, the collector
    records nothing, not even the request count: its recording is not
    deferred, and the panic goes through. *)
Theorem collector_response_panic_unrecorded (m : metrics.Collector)
        (ctx : Context) (next : Handler (option graphql.Response))
        (w : world) (p : panicValue) (t' : time.Time) :
  next ctx (clock w) = (Panicked p, t') ->
  fst (metrics.InterceptResponse m ctx next w) = Panicked p
  /\ observe.recordsIn
       (observe.since w (snd (metrics.InterceptResponse m ctx next w)))
     = [].
Proof.
  intros Hnext.
  rewrite (collector_response_panic m ctx w next p t' Hnext). cbn.
  now rewrite since_app.
Qed.

(** X6.  A collector that was not made by [New] and has no tagging
    closure panics on a call through nil: in an operation interception
    once the wrapped handler has returned, and in the interception of a
    method-backed field with field metrics enabled, where the panic of
    the deferred recording replaces the outcome of the resolver.  In both
    cases nothing is recorded. *)
Theorem collector_without_closures_panics (m : metrics.Collector)
        (ctx : Context) (w : world) :
  (forall next r t',
      metrics.opTagger m = None ->
      next ctx (clock w) = (Returned r, t') ->
      fst (metrics.InterceptResponse m ctx next w) = Panicked NilFunctionCall
      /\ observe.recordsIn
           (observe.since w (snd (metrics.InterceptResponse m ctx next w)))
         = [])
  /\ (forall V (next : Handler (metrics.Resolved V)),
         metrics.fieldsEnabled (metrics.cfg m) = true ->
         graphql.IsMethod (fieldContext ctx) = true ->
         metrics.fieldTagger m = None ->
         fst (metrics.InterceptField m ctx next w) = Panicked NilFunctionCall
         /\ observe.recordsIn
              (observe.since w (snd (metrics.InterceptField m ctx next w)))
            = []).
Proof.
  split.
  - intros next r t' Hnil Hnext.
    rewrite (collector_response_untagged m ctx w next r t' Hnil Hnext). cbn.
    now rewrite since_app.
  - intros V next Hon Hm Hnil.
    rewrite (collector_field_untagged m ctx w V next Hon Hm Hnil). cbn.
    now rewrite since_app.
Qed.

(** X7.  When the attribute function of the tracer is nil or panics, the
    wrapped handler is not called and the panic is the outcome.  In a
    field interception the span has been started and is never ended: the
    end of the span is deferred only after the attributes are attached.
    In an operation interception the end of the span is deferred first,
    and the span is ended. *)
Theorem attribute_panic_and_span (tr : gqlopencensus.Tracer) (ctx : Context)
        (w : world) (p : panicValue) :
  let s := List.length (log w) in
  (forall V (next : Handler (metrics.Resolved V)),
      observe.skipped tr ctx = false ->
      gqlopencensus.attributesOf
        (gqlopencensus.fieldAttributes (gqlopencensus.cfg tr))
        (fieldContext ctx)
      = Panicked p ->
      gqlopencensus.InterceptField tr ctx next w
      = (Panicked p,
         {| clock := clock w;
            log := (log w ++
                    [StartSpan s (graphql.PathString (fieldContext ctx))
                               trace.SpanKindServer])%list |}))
  /\ (forall next,
         gqlopencensus.attributesOf
           (gqlopencensus.operationAttributes (gqlopencensus.cfg tr))
           (operationContext ctx)
         = Panicked p ->
         gqlopencensus.InterceptResponse tr ctx next w
         = (Panicked p,
            {| clock := clock w;
               log := (log w ++
                       [StartSpan s
                          (gqlopencensus.operationName (operationContext ctx))
                          trace.SpanKindServer;
                        EndSpan s])%list |})).
Proof.
  intros s. split.
  - intros V next Hskip Ha.
    now apply tracer_field_attributes_panic.
  - intros next Ha.
    now apply tracer_response_attributes_panic.
Qed.

(** X8.  The tracer and a collector made by [New] agree on failure: for a
    response that is not nil, the tracer (whose attribute function has
    returned, so that the wrapped handler ran) sets a status on its span,
    and the collector records the error count, exactly when the response
    carries at least one error. *)
Theorem errors_reported_iff (tr : gqlopencensus.Tracer)
        (d : metrics.Collector) (opts : list metrics.Option)
        (ctx : Context) (next : Handler (option graphql.Response))
        (w : world) (resp : graphql.Response)
        (attrs : list trace.Attribute) :
  let m := metrics.New d opts in
  let tags := logs.operationTagSet m
                (metrics.operationName (operationContext ctx)) in
  (gqlopencensus.attributesOf
     (gqlopencensus.operationAttributes (gqlopencensus.cfg tr))
     (operationContext ctx)
   = Returned attrs ->
   fst (next (logs.withSpan ctx w) (clock w)) = Returned (Some resp) ->
   (observe.statusesIn
      (observe.since w (snd (gqlopencensus.InterceptResponse tr ctx next w)))
    <> []
    <-> graphql.Errors resp <> []))
  /\ (fst (next ctx (clock w)) = Returned (Some resp) ->
      (In (tags, [stats.M metrics.ServerErrorCount (stats.IntValue 1)])
          (observe.recordsIn
             (observe.since w (snd (metrics.InterceptResponse m ctx next w))))
       <-> graphql.Errors resp <> [])).
Proof.
  intros m tags. split; [intros Hattrs Hnext | intros Hnext].
  - pose proof (tracer_response_events tr ctx next w) as H. cbn zeta in H.
    rewrite Hattrs, Hnext in H. destruct H as [_ ->].
    destruct (graphql.Errors resp) as [|e rest]; cbn.
    + split; intros H; now destruct H.
    + split; intros _; discriminate.
  - pose proof (collector_response_events m ctx next w) as H. cbn zeta in H.
    subst m. rewrite New_opTagger_set, Hnext in H. destruct H as [_ ->].
    destruct (graphql.Errors resp) as [|e rest]; cbn.
    + split.
      * intros [H|[]]. discriminate H.
      * intros H. now destruct H.
    + split; [discriminate|]. intros _. right. now left.
Qed.

(** ** Options *)

(** X9.  Options compose: building a collector from the options [first]
    followed by [second] is building it from [second], starting from the
    default collector whose configuration went through [first]. *)
Theorem New_options_compose (d : metrics.Collector)
        (first second : list metrics.Option) :
  metrics.New d (first ++ second)%list
  = metrics.New
      {| metrics.cfg := fold_left (fun c apply => apply c) first
                                  (metrics.cfg d);
         metrics.opTagger := metrics.opTagger d;
         metrics.fieldTagger := metrics.fieldTagger d |}
      second.
Proof.
  unfold metrics.New. cbn. now rewrite fold_left_app.
Qed.

(** ** The views against the recordings *)

(** X10.  Whatever a collector made by [New] records, in a field or in an
    operation interception, is aggregated by the declared views: no
    measurement is without a view, and the tag keys of the recording call
    are the tag keys of the views on its measurements, up to their
    order. *)
Theorem recordings_are_aggregated (d : metrics.Collector)
        (opts : list metrics.Option) (ctx : Context) (w : world) :
  let m := metrics.New d opts in
  (forall V (next : Handler (metrics.Resolved V)),
      Forall observe.aggregated
        (observe.recordsIn
           (observe.since w (snd (metrics.InterceptField m ctx next w)))))
  /\ (forall next,
         Forall observe.aggregated
           (observe.recordsIn
              (observe.since w
                 (snd (metrics.InterceptResponse m ctx next w))))).
Proof.
  intros m. subst m. split.
  - intros V next.
    pose proof (collector_field_events V (metrics.New d opts) ctx next w)
      as H. cbn zeta in H.
    destruct (metrics.fieldsEnabled (metrics.cfg (metrics.New d opts)))
      eqn:Hon; cbn [andb] in H.
    + destruct (graphql.IsMethod (fieldContext ctx)).
      * rewrite (New_fieldTagger_set d opts Hon) in H.
        destruct H as [_ ->]. cbn.
        repeat (apply Permutation_refl || constructor); discriminate.
      * destruct H as [_ ->]. constructor.
    + destruct H as [_ ->]. constructor.
  - intros next.
    pose proof (collector_response_events (metrics.New d opts) ctx next w)
      as H. cbn zeta in H.
    rewrite New_opTagger_set in H.
    destruct (fst (next ctx (clock w))) as [[resp|]|p];
      destruct H as [_ ->]; cbn.
    + destruct (graphql.Errors resp); cbn;
        repeat (apply Permutation_refl || constructor); discriminate.
    + repeat (apply Permutation_refl || constructor); discriminate.
    + constructor.
Qed.

(** X11.  The six declared views have six different names. *)
Theorem view_names_distinct :
  NoDup (map view.Name views.GQLViews).
Proof.
  repeat constructor; cbn; intuition discriminate.
Qed.

(** X12.  Each declared view fits its measure: a count view is on a
    dimensionless integer measure, and a distribution view is on a float
    measure in milliseconds, with positive, strictly ascending bucket
    bounds. *)
Theorem view_aggregations_fit :
  Forall (fun v =>
            match view.Aggregation v with
            | view.Count =>
                stats.MeasureKind (view.Measure v) = stats.KInt64
                /\ stats.MeasureUnit (view.Measure v) = stats.UnitDimensionless
            | view.Distribution bounds =>
                stats.MeasureKind (view.Measure v) = stats.KFloat64
                /\ stats.MeasureUnit (view.Measure v) = stats.UnitMilliseconds
                /\ observe.ascending bounds = true
                /\ Forall (fun b => (0 < b)%Z) bounds
            end)
         views.GQLViews.
Proof.
  repeat constructor.
Qed.

(** ** The further properties at sample inputs *)

(** An operation context that nothing names. *)
Lemma operationName_empty_iff_witness :
  metrics.operationName sample.unnamedOpCtx = "".
Proof.
  apply (proj2 (operationName_empty_iff sample.unnamedOpCtx)).
  split; [reflexivity | left; reflexivity].
Defined.

(** A panicking operation through the collector. *)
Lemma collector_response_panic_unrecorded_witness :
  fst (metrics.InterceptResponse sample.collector sample.userCtx
         scenario.crashing sample.w0)
  = Panicked (Raised "boom")
  /\ observe.recordsIn
       (observe.since sample.w0
          (snd (metrics.InterceptResponse sample.collector sample.userCtx
                  scenario.crashing sample.w0)))
     = [].
Proof.
  exact (collector_response_panic_unrecorded
           sample.collector sample.userCtx scenario.crashing sample.w0
           (Raised "boom") 1003%Z eq_refl).
Defined.

(** A collector without closures, with field metrics enabled. *)
Lemma collector_without_closures_panics_witness :
  fst (metrics.InterceptResponse (sample.bare true) sample.userCtx
         sample.silent sample.w0)
  = Panicked NilFunctionCall
  /\ fst (metrics.InterceptField (sample.bare true) sample.userCtx
            sample.resolver sample.w0)
     = Panicked NilFunctionCall.
Proof.
  destruct (collector_without_closures_panics
              (sample.bare true) sample.userCtx sample.w0)
    as [Hresponse Hfield].
  split.
  - exact (proj1 (Hresponse sample.silent None 1007%Z eq_refl eq_refl)).
  - exact (proj1 (Hfield Z sample.resolver eq_refl eq_refl eq_refl)).
Defined.

(** The zero tracer on a field and on an operation. *)
Lemma attribute_panic_and_span_witness :
  gqlopencensus.InterceptField scenario.zeroTracer sample.userCtx
    sample.resolver sample.w0
  = (Panicked NilFunctionCall,
     {| clock := 1000%Z;
        log := [StartSpan 0 "query/user" trace.SpanKindServer] |})
  /\ gqlopencensus.InterceptResponse scenario.zeroTracer sample.userCtx
       sample.silent sample.w0
     = (Panicked NilFunctionCall,
        {| clock := 1000%Z;
           log := [StartSpan 0 "test" trace.SpanKindServer; EndSpan 0] |}).
Proof.
  destruct (attribute_panic_and_span scenario.zeroTracer sample.userCtx
              sample.w0 NilFunctionCall) as [Hfield Hresponse].
  split.
  - exact (Hfield Z sample.resolver eq_refl eq_refl).
  - exact (Hresponse sample.silent eq_refl).
Defined.

(** A failing operation through the tracer and the collector. *)
Lemma errors_reported_iff_witness :
  (observe.statusesIn
     (observe.since sample.w0
        (snd (gqlopencensus.InterceptResponse sample.tracer sample.userCtx
                sample.failing sample.w0)))
   <> []
   <-> graphql.Errors sample.failed <> [])
  /\ (In (sample.hostTags,
          [stats.M metrics.ServerErrorCount (stats.IntValue 1)])
         (observe.recordsIn
            (observe.since sample.w0
               (snd (metrics.InterceptResponse sample.collector sample.userCtx
                       sample.failing sample.w0))))
      <-> graphql.Errors sample.failed <> []).
Proof.
  destruct (errors_reported_iff sample.tracer (sample.bare true) []
              sample.userCtx sample.failing sample.w0 sample.failed [])
    as [Htracer Hcollector].
  split.
  - exact (Htracer eq_refl eq_refl).
  - exact (Hcollector eq_refl).
Defined.
